(** * nwjs-node: engine-instance lifecycle and task-queue bridge

    A shallow embedding of [src/node_task_queue.cc] and
    [src/node_main_instance.cc].  Native code is written in a small monad
    that threads the mutable state, records every call made to a
    collaborator (the script engine, the reactor, the background-task
    platform) in a log, and distinguishes returning from the process abort
    of a failed [CHECK].  The collaborators themselves are parameters: every
    theorem holds for all of their behaviours. *)

From Stdlib Require Import ZArith List Bool String Lia.
Import ListNotations.
Local Open Scope Z_scope.

(** ** Outcomes of native code *)

Section OutcomeMonad.
Variables Ev St : Type.

(** A native function either returns, or dies on a failed [CHECK] (the
    text of the condition is kept), or - in the model only - runs out of
    the fuel that bounds its loops. *)
Inductive Outcome (A : Type) : Type :=
| Returned (a : A) (s : St) (log : list Ev)
| Aborted (check : string) (s : St) (log : list Ev)
| OutOfFuel (s : St) (log : list Ev).

Arguments Returned {A} a s log.
Arguments Aborted {A} check s log.
Arguments OutOfFuel {A} s log.

Definition M (A : Type) : Type := St -> Outcome A.

Definition prepend {A} (l : list Ev) (o : Outcome A) : Outcome A :=
  match o with
  | Returned a s l' => Returned a s (l ++ l')
  | Aborted c s l' => Aborted c s (l ++ l')
  | OutOfFuel s l' => OutOfFuel s (l ++ l')
  end.

Definition ret {A} (a : A) : M A := fun s => Returned a s [].

Definition bind {A B} (m : M A) (f : A -> M B) : M B :=
  fun s =>
    match m s with
    | Returned a s1 l1 => prepend l1 (f a s1)
    | Aborted c s1 l1 => Aborted c s1 l1
    | OutOfFuel s1 l1 => OutOfFuel s1 l1
    end.

Definition gets {A} (f : St -> A) : M A := fun s => Returned (f s) s [].
Definition modify (f : St -> St) : M unit := fun s => Returned tt (f s) [].
Definition emit (e : Ev) : M unit := fun s => Returned tt s [e].
Definition abort {A} (check : string) : M A := fun s => Aborted check s [].
Definition out_of_fuel {A} : M A := fun s => OutOfFuel s [].

(** [CHECK(cond)]: abort the process unless [cond] holds. *)
Definition CHECK (cond : bool) (text : string) : M unit :=
  if cond then ret tt else abort text.

Definition log_of {A} (o : Outcome A) : list Ev :=
  match o with
  | Returned _ _ l | Aborted _ _ l | OutOfFuel _ l => l
  end.

Definition state_of {A} (o : Outcome A) : St :=
  match o with
  | Returned _ s _ | Aborted _ s _ | OutOfFuel s _ => s
  end.

Definition returns {A} (o : Outcome A) : bool :=
  match o with Returned _ _ _ => true | _ => false end.

End OutcomeMonad.

Arguments Returned {Ev St A} a s log.
Arguments Aborted {Ev St A} check s log.
Arguments OutOfFuel {Ev St A} s log.
Arguments prepend {Ev St A} l o.
Arguments bind {Ev St A B} m f _.
Arguments log_of {Ev St A} o.
Arguments state_of {Ev St A} o.
Arguments returns {Ev St A} o.
Arguments ret {Ev St A} a _.
Arguments gets {Ev St A} f _.
Arguments modify {Ev St} f _.
Arguments emit {Ev St} e _.
Arguments abort {Ev St A} check _.
Arguments out_of_fuel {Ev St A} _.
Arguments CHECK {Ev St} cond text _.

Declare Scope native_scope.
Delimit Scope native_scope with native.
Notation "x <- c1 ;; c2" := (bind c1 (fun x => c2))
  (at level 61, c1 at next level, right associativity) : native_scope.
Notation "c1 ;; c2" := (bind c1 (fun _ => c2))
  (at level 61, right associativity) : native_scope.
Local Open Scope native_scope.

(** ** Script-engine handles *)

(** A [Local<T>] (or [MaybeLocal<T>]) handle may be empty. *)
Definition LocalHandle (T : Type) : Type := option T.

Definition IsEmpty {T} (h : LocalHandle T) : bool :=
  match h with Some _ => false | None => true end.

(** Script values, as far as the native side tells them apart. *)
Inductive Value : Type :=
| Undefined
| Number (n : Z)
| Function (id : nat)
| Object (id : nat)
| Promise (id : nat).

Definition IsFunction (v : Value) : bool :=
  match v with Function _ => true | _ => false end.

(** [args[i]] of a [FunctionCallbackInfo]: out of range reads [undefined]. *)
Definition FunctionCallbackInfo : Type := list Value.

Definition arg (args : FunctionCallbackInfo) (i : nat) : Value :=
  nth i args Undefined.

(** A [std::atomic<uint64_t>] counter and its [++]. *)
Definition UINT64_MODULUS : Z := 2 ^ 64.

Definition uint64_incr (c : Z) : Z := (c + 1) mod UINT64_MODULUS.

(** * [node_task_queue.cc] *)

Module task_queue.

(** Modelled from the spec: [TickInfo] is declared outside the sources; the
    spec gives it as two independent boolean flags shared with the scripted
    layer and no other state. *)
Record TickInfo : Type := mkTickInfo {
  has_tick_scheduled : bool;
  has_rejection_to_warn : bool
}.

(** The parts of an [Environment] that this file reads or writes. *)
Record Environment : Type := mkEnvironment {
  tick_info : TickInfo;
  tick_callback_function : LocalHandle Value;
  promise_reject_callback : LocalHandle Value;
  process_object : Value
}.

Definition set_tick_callback_function (f : Value) (e : Environment) : Environment :=
  mkEnvironment (tick_info e) (Some f) (promise_reject_callback e) (process_object e).

Definition set_promise_reject_callback (f : Value) (e : Environment) : Environment :=
  mkEnvironment (tick_info e) (tick_callback_function e) (Some f) (process_object e).

(** What [v8::PromiseRejectMessage] carries. *)
Record PromiseRejectMessage : Type := mkPromiseRejectMessage {
  GetPromise : Value;
  GetEvent : Z;
  GetValue : LocalHandle Value
}.

(** Calls made to the engine and to the tracing sink. *)
Inductive Event : Type :=
| PerformCheckpoint
| IsolateEnqueueMicrotask (f : Value)
| FunctionCall (callback recv : Value) (argv : list Value)
| TraceCounter2 (name : string) (id1 : string) (v1 : Z) (id2 : string) (v2 : Z).

Section Bridge.
(** The rest of the script heap. *)
Variable Heap : Type.

(** Everything scripts can see and change: the environment, the native
    microtask queue of its isolate, and the heap. *)
Record Script : Type := mkScript {
  env : Environment;
  microtask_queue : list Value;
  heap : Heap
}.

Definition with_env (f : Environment -> Environment) (w : Script) : Script :=
  mkScript (f (env w)) (microtask_queue w) (heap w).

(** The process: the environment of the isolate's current context, when one
    is associated ([Environment::GetCurrent(isolate)]), and the two static
    counters of [PromiseRejectCallback]. *)
Record Process : Type := mkProcess {
  current_environment : option Script;
  unhandledRejections : Z;
  rejectionsHandledAfter : Z
}.

(** The engine: what a microtask checkpoint and a call into script do to
    the script-visible state.  A call yields an empty handle when it raised
    an exception.  The static counters are native state, out of the reach of
    scripts; an invocation of native code that the engine makes while a
    script runs is an invocation of its own and is not nested here. *)
Variable run_checkpoint : Script -> Script.
Variable run_call : Value -> Value -> list Value -> Script -> LocalHandle Value * Script.

(** The enumerators of [v8::PromiseRejectEvent], declared outside the
    sources. *)
Variables kPromiseRejectWithNoHandler kPromiseHandlerAddedAfterReject
          kPromiseRejectAfterResolved kPromiseResolveAfterResolved : Z.

Definition Native : Type -> Type := M Event Script.

Definition MicrotasksScope_PerformCheckpoint : Native unit :=
  emit PerformCheckpoint ;; modify run_checkpoint.

Definition Isolate_EnqueueMicrotask (f : Value) : Native unit :=
  emit (IsolateEnqueueMicrotask f) ;;
  modify (fun w => mkScript (env w) (microtask_queue w ++ [f]) (heap w)).

Definition Function_Call (callback recv : Value) (argv : list Value)
  : Native (LocalHandle Value) :=
  emit (FunctionCall callback recv argv) ;;
  fun w => let (r, w') := run_call callback recv argv w in Returned r w' [].

Definition EnqueueMicrotask (args : FunctionCallbackInfo) : Native unit :=
  CHECK (IsFunction (arg args 0)) "args[0]->IsFunction()" ;;
  Isolate_EnqueueMicrotask (arg args 0).

Definition flags_clear (w : Script) : bool :=
  negb (has_tick_scheduled (tick_info (env w)))
  && negb (has_rejection_to_warn (tick_info (env w))).

Definition RunNextTicksNative : Native bool :=
  clear <- gets flags_clear ;;
  (if clear then MicrotasksScope_PerformCheckpoint else ret tt) ;;
  clear <- gets flags_clear ;;
  if clear then ret true
  else
    callback <- gets (fun w => tick_callback_function (env w)) ;;
    match callback with
    | None => abort "!callback.IsEmpty()"
    | Some callback =>
        process <- gets (fun w => process_object (env w)) ;;
        r <- Function_Call callback process [] ;;
        ret (negb (IsEmpty r))
    end.

Definition RunMicrotasks (args : FunctionCallbackInfo) : Native unit :=
  MicrotasksScope_PerformCheckpoint.

Definition SetTickCallback (args : FunctionCallbackInfo) : Native unit :=
  CHECK (IsFunction (arg args 0)) "args[0]->IsFunction()" ;;
  modify (with_env (set_tick_callback_function (arg args 0))).

Definition SetPromiseRejectCallback (args : FunctionCallbackInfo) : Native unit :=
  CHECK (IsFunction (arg args 0)) "args[0]->IsFunction()" ;;
  modify (with_env (set_promise_reject_callback (arg args 0))).

(** Run native code of the environment [w] inside the process. *)
Definition in_environment {A} (w : Script) (m : Native A) : M Event Process A :=
  fun p =>
    let back w' := mkProcess (Some w') (unhandledRejections p) (rejectionsHandledAfter p) in
    match m w with
    | Returned a w' l => Returned a (back w') l
    | Aborted c w' l => Aborted c (back w') l
    | OutOfFuel w' l => OutOfFuel (back w') l
    end.

Definition trace_rejections : M Event Process unit :=
  u <- gets unhandledRejections ;;
  h <- gets rejectionsHandledAfter ;;
  emit (TraceCounter2 "rejections" "unhandled" u "handledAfter" h).

Definition incr_unhandledRejections (p : Process) : Process :=
  mkProcess (current_environment p) (uint64_incr (unhandledRejections p))
            (rejectionsHandledAfter p).

Definition incr_rejectionsHandledAfter (p : Process) : Process :=
  mkProcess (current_environment p) (unhandledRejections p)
            (uint64_incr (rejectionsHandledAfter p)).

(** [Undefined] stands in for an empty handle. *)
Definition or_undefined (v : LocalHandle Value) : Value :=
  match v with Some v => v | None => Undefined end.

Definition PromiseRejectCallback (message : PromiseRejectMessage)
  : M Event Process unit :=
  let promise := GetPromise message in
  let event := GetEvent message in
  e <- gets current_environment ;;
  match e with
  | None => ret tt
  | Some w =>
      match promise_reject_callback (env w) with
      | None => abort "!callback.IsEmpty()"
      | Some callback =>
          let type := Number event in
          let dispatch (value : LocalHandle Value) :=
            r <- in_environment w
                   (Function_Call callback Undefined
                                  [type; promise; or_undefined value]) ;;
            ret tt in
          if event =? kPromiseRejectWithNoHandler then
            modify incr_unhandledRejections ;;
            trace_rejections ;;
            dispatch (GetValue message)
          else if event =? kPromiseHandlerAddedAfterReject then
            modify incr_rejectionsHandledAfter ;;
            trace_rejections ;;
            dispatch (Some Undefined)
          else if event =? kPromiseResolveAfterResolved then
            dispatch (GetValue message)
          else if event =? kPromiseRejectAfterResolved then
            dispatch (GetValue message)
          else ret tt
      end
  end.

(** The state in which [RunNextTicksNative] looks at the flags for the second
    time, and the engine calls made until then. *)
Definition after_checkpoint (w : Script) : Script :=
  if flags_clear w then run_checkpoint w else w.

Definition checkpoint_log (w : Script) : list Event :=
  if flags_clear w then [PerformCheckpoint] else [].

(** The microtask queue after [f] was scheduled on it. *)
Definition enqueued (f : Value) (w : Script) : Script :=
  mkScript (env w) (microtask_queue w ++ [f]) (heap w).

(** The call by which [PromiseRejectCallback] notifies [callback]. *)
Definition dispatch (callback : Value) (message : PromiseRejectMessage)
  (value : Value) : Event :=
  FunctionCall callback Undefined [Number (GetEvent message); GetPromise message; value].

Definition trace_counter (unhandled handledAfter : Z) : Event :=
  TraceCounter2 "rejections" "unhandled" unhandled "handledAfter" handledAfter.
End Bridge.

Arguments mkScript {Heap} _ _ _.
Arguments env {Heap} _.
Arguments microtask_queue {Heap} _.
Arguments heap {Heap} _.
Arguments mkProcess {Heap} _ _ _.
Arguments current_environment {Heap} _.
Arguments unhandledRejections {Heap} _.
Arguments rejectionsHandledAfter {Heap} _.
Arguments with_env {Heap} f w.
Arguments flags_clear {Heap} w.
Arguments EnqueueMicrotask {Heap} args _.
Arguments RunNextTicksNative {Heap} run_checkpoint run_call _.
Arguments RunMicrotasks {Heap} run_checkpoint args _.
Arguments SetTickCallback {Heap} args _.
Arguments SetPromiseRejectCallback {Heap} args _.
Arguments PromiseRejectCallback {Heap} run_call _ _ _ _ message _.
Arguments in_environment {Heap A} w m _.
Arguments after_checkpoint {Heap} run_checkpoint w.
Arguments checkpoint_log {Heap} w.
Arguments enqueued {Heap} f w.

(** *** A small engine and a few states, for the examples *)

(** A checkpoint whose microtasks schedule a tick. *)
Definition checkpoint_scheduling_tick (w : Script unit) : Script unit :=
  with_env (fun e => mkEnvironment (mkTickInfo true (has_rejection_to_warn (tick_info e)))
                       (tick_callback_function e) (promise_reject_callback e)
                       (process_object e)) w.

(** Calls that succeed with [undefined] and clear the tick flag. *)
Definition call_clearing_tick (callback recv : Value) (argv : list Value)
  (w : Script unit) : LocalHandle Value * Script unit :=
  (Some Undefined,
   with_env (fun e => mkEnvironment (mkTickInfo false (has_rejection_to_warn (tick_info e)))
                        (tick_callback_function e) (promise_reject_callback e)
                        (process_object e)) w).

(** After bootstrap: both callbacks registered, nothing scheduled. *)
Definition bootstrapped : Script unit :=
  mkScript (mkEnvironment (mkTickInfo false false) (Some (Function 1))
                          (Some (Function 2)) (Object 0))
           [] tt.

(** Before bootstrap: no callback registered yet, and a tick pending. *)
Definition unregistered : Script unit :=
  mkScript (mkEnvironment (mkTickInfo true false) None None (Object 0)) [] tt.

(** A promise rejected with reason 42 and no handler; the event kinds are
    numbered 0 to 3 in the examples. *)
Definition rejected_no_handler : PromiseRejectMessage :=
  mkPromiseRejectMessage (Promise 5) 0 (Some (Number 42)).

Definition process_after_bootstrap : Process unit := mkProcess (Some bootstrapped) 7 3.

Definition process_before_bootstrap : Process unit := mkProcess (Some unregistered) 0 0.

Definition process_without_environment : Process unit := mkProcess None 7 3.

(** *** Callers of the bindings *)

Definition is_FunctionCall (e : Event) : bool :=
  match e with FunctionCall _ _ _ => true | _ => false end.

Section Callers.
Variable Heap : Type.

(** A script that calls [enqueueMicrotask] once for each element of
    [calls], in order. *)
Fixpoint enqueue_each (calls : list FunctionCallbackInfo) : M Event (Script Heap) unit :=
  match calls with
  | [] => ret tt
  | args :: rest => EnqueueMicrotask args ;; enqueue_each rest
  end.

(** The process with [w] as the environment of the current context. *)
Definition with_current (w : Script Heap) (p : Process Heap) : Process Heap :=
  mkProcess (Some w) (unhandledRejections p) (rejectionsHandledAfter p).

(** Both static counters hold 64-bit values. *)
Definition counters_in_range (p : Process Heap) : Prop :=
  0 <= unhandledRejections p < UINT64_MODULUS /\
  0 <= rejectionsHandledAfter p < UINT64_MODULUS.
End Callers.

Arguments enqueue_each {Heap} calls _.
Arguments with_current {Heap} w p.
Arguments counters_in_range {Heap} p.

End task_queue.

(** * [node_main_instance.cc] *)

Module main_instance.

(** Opaque handles to the objects of the collaborators. *)
Definition Isolate : Type := nat.
Definition uv_loop_t : Type := nat.
Definition MultiIsolatePlatform : Type := nat.
Definition ArrayBufferAllocator : Type := nat.
Definition Context : Type := nat.

Inductive IsolateSettingCategories : Type := kErrorHandlers | kMisc.

Inductive uv_run_mode : Type := UV_RUN_DEFAULT | UV_RUN_ONCE | UV_RUN_NOWAIT.

Inductive PerformanceMilestone : Type :=
| NODE_PERFORMANCE_MILESTONE_LOOP_START
| NODE_PERFORMANCE_MILESTONE_LOOP_EXIT.

Inductive EnvironmentFlag : Type := kIsMainThread | kOwnsProcessState | kOwnsInspector.

(** The fields of [Isolate::CreateParams] that this file reads or writes; the
    others stay with the engine. *)
Record CreateParams : Type := mkCreateParams {
  array_buffer_allocator : option ArrayBufferAllocator;
  external_references : option (list Z)
}.

Record IsolateData : Type := mkIsolateData {
  data_isolate : Isolate;
  data_event_loop : uv_loop_t;
  data_platform : MultiIsolatePlatform;
  data_allocator : option ArrayBufferAllocator;
  data_indexes : option (list nat)
}.

Record NodeMainInstance : Type := mkNodeMainInstance {
  args_ : list string;
  exec_args_ : list string;
  array_buffer_allocator_ : option ArrayBufferAllocator;
  isolate_ : Isolate;
  platform_ : MultiIsolatePlatform;
  isolate_data_ : option IsolateData;
  owns_isolate_ : bool;
  deserialize_mode_ : bool
}.

(** What [CreateMainEnvironment] hands to the [Environment] constructor. *)
Record Environment : Type := mkEnvironment {
  env_isolate_data : option IsolateData;
  env_context : Context;
  env_args : list string;
  env_exec_args : list string;
  env_flags : list EnvironmentFlag
}.

(** Every call this file makes to a collaborator, with its arguments and,
    where the code uses it, its result. *)
Inductive Event : Type :=
| Ev_ArrayBufferAllocator_Create (result : ArrayBufferAllocator)
| Ev_ArrayBufferAllocator_reset (allocator : ArrayBufferAllocator)
| Ev_Isolate_Allocate (result : option Isolate)
| Ev_RegisterIsolate (platform : MultiIsolatePlatform) (isolate : Isolate) (loop : uv_loop_t)
| Ev_SetIsolateCreateParamsForNode
| Ev_Isolate_Initialize (isolate : Isolate) (params : CreateParams)
| Ev_new_IsolateData (data : IsolateData)
| Ev_SetIsolateUpForNode (isolate : Isolate) (category : IsolateSettingCategories)
| Ev_DrainTasks (platform : MultiIsolatePlatform) (isolate : Isolate)
| Ev_Isolate_Dispose (isolate : Isolate)
| Ev_UnregisterIsolate (platform : MultiIsolatePlatform) (isolate : Isolate)
| Ev_StartTrackingHeapObjects (isolate : Isolate)
| Ev_Context_FromSnapshot (isolate : Isolate) (index : nat) (result : option Context)
| Ev_NewContext (isolate : Isolate) (result : option Context)
| Ev_new_Environment (env : Environment)
| Ev_InitializeLibuv (start_profiler_idle_notifier : bool)
| Ev_InitializeDiagnostics
| Ev_InitializeInspector (result : Z)
| Ev_RunBootstrapping (ok : bool)
| Ev_push_async_ids (async_id trigger_async_id : Z)
| Ev_LoadEnvironment
| Ev_pop_async_id (async_id : Z)
| Ev_Mark (milestone : PerformanceMilestone)
| Ev_uv_run (mode : uv_run_mode)
| Ev_DrainVMTasks (isolate : Isolate)
| Ev_RunBeforeExitCallbacks
| Ev_EmitBeforeExit
| Ev_set_trace_sync_io (value : bool)
| Ev_EmitExit (result : Z)
| Ev_WaitForInspectorDisconnect
| Ev_set_can_call_into_js (value : bool)
| Ev_stop_sub_worker_contexts
| Ev_ResetStdio
| Ev_RunCleanup
| Ev_RunAtExit
| Ev_CancelVMTasks (isolate : Isolate)
| Ev_lsan_do_leak_check.

(** Globals and build-time switches the file depends on. *)
Record Config : Type := mkConfig {
  node_is_nwjs : bool;
  track_heap_objects : bool;
  v8_is_profiling : bool;
  HAVE_INSPECTOR_AND_V8_PLATFORM : bool;
  LEAK_SANITIZER : bool;
  kNodeContextIndex : nat
}.

(** The collaborators (engine, task platform, reactor, bootstrap scripts,
    debugger) over their own state [World]: what each call does to that
    state, and what the value-returning calls answer in a given state. *)
Record Collaborators (World : Type) : Type := mkCollaborators {
  effect : Event -> World -> World;
  allocator_created : World -> ArrayBufferAllocator;
  isolate_allocated : World -> option Isolate;
  context_from_snapshot : World -> option Context;
  context_created : World -> option Context;
  inspector_status : World -> Z;
  bootstrap_succeeds : World -> bool;
  loop_alive : World -> bool;
  stopping : World -> bool;
  exit_status : World -> Z
}.

Arguments mkCollaborators {World} _ _ _ _ _ _ _ _ _ _.
Arguments effect {World} _ _ _.
Arguments allocator_created {World} _ _.
Arguments isolate_allocated {World} _ _.
Arguments context_from_snapshot {World} _ _.
Arguments context_created {World} _ _.
Arguments inspector_status {World} _ _.
Arguments bootstrap_succeeds {World} _ _.
Arguments loop_alive {World} _ _.
Arguments stopping {World} _ _.
Arguments exit_status {World} _ _.

Section Instance.
Variable World : Type.
Variable C : Collaborators World.
Variable cfg : Config.

Definition Native : Type -> Type := M Event World.

(** A call whose result the code does not use. *)
Definition call (e : Event) : Native unit :=
  emit e ;; modify (effect C e).

(** A call whose result [answer] the code uses. *)
Definition ask {A} (answer : World -> A) (e : A -> Event) : Native A :=
  a <- gets answer ;; call (e a) ;; ret a.

Definition isSome {A} (o : option A) : bool :=
  match o with Some _ => true | None => false end.

(** [NodeMainInstance(Isolate*, ...)]: attach to the caller's isolate. *)
Definition NodeMainInstance_attach
  (isolate : Isolate) (event_loop : uv_loop_t) (platform : MultiIsolatePlatform)
  (args exec_args : list string) : Native NodeMainInstance :=
  let data := mkIsolateData isolate event_loop platform None None in
  call (Ev_new_IsolateData data) ;;
  call (Ev_SetIsolateUpForNode isolate kMisc) ;;
  ret (mkNodeMainInstance args exec_args None isolate platform (Some data) false false).

Definition Create := NodeMainInstance_attach.

(** [NodeMainInstance(Isolate::CreateParams*, ...)]: create and own an
    isolate.  Returns the instance and the parameters as it left them. *)
Definition NodeMainInstance_owned
  (params : CreateParams) (event_loop : uv_loop_t) (platform : MultiIsolatePlatform)
  (args exec_args : list string) (per_isolate_data_indexes : option (list nat))
  : Native (NodeMainInstance * CreateParams) :=
  created <- ask (allocator_created C) Ev_ArrayBufferAllocator_Create ;;
  allocator <- (if node_is_nwjs cfg
                then call (Ev_ArrayBufferAllocator_reset created) ;; ret None
                else ret (Some created)) ;;
  let params := mkCreateParams allocator (external_references params) in
  allocated <- ask (isolate_allocated C) Ev_Isolate_Allocate ;;
  match allocated with
  | None => abort "(isolate_) != nullptr"
  | Some isolate =>
      call (Ev_RegisterIsolate platform isolate event_loop) ;;
      call Ev_SetIsolateCreateParamsForNode ;;
      call (Ev_Isolate_Initialize isolate params) ;;
      let deserialize_mode := isSome per_isolate_data_indexes in
      CHECK (implb deserialize_mode (isSome (external_references params)))
            "!(deserialize_mode_) || (params->external_references != nullptr)" ;;
      let data := mkIsolateData isolate event_loop platform allocator
                                per_isolate_data_indexes in
      call (Ev_new_IsolateData data) ;;
      call (Ev_SetIsolateUpForNode isolate kMisc) ;;
      (if negb deserialize_mode
       then call (Ev_SetIsolateUpForNode isolate kErrorHandlers)
       else ret tt) ;;
      ret (mkNodeMainInstance args exec_args allocator isolate platform
                              (Some data) true deserialize_mode,
           params)
  end.

(** [~NodeMainInstance()]. *)
Definition destroy (self : NodeMainInstance) : Native unit :=
  if negb (owns_isolate_ self) then ret tt
  else
    call (Ev_Isolate_Dispose (isolate_ self)) ;;
    call (Ev_UnregisterIsolate (platform_ self) (isolate_ self)).

(** [Dispose()]; its [delete this] runs the destructor. *)
Definition Dispose (self : NodeMainInstance) : Native unit :=
  CHECK (negb (owns_isolate_ self)) "!owns_isolate_" ;;
  call (Ev_DrainTasks (platform_ self) (isolate_ self)) ;;
  destroy self.

Definition CreateMainEnvironment (self : NodeMainInstance)
  : Native (option Environment * Z) :=
  let exit_code := 0 in
  (if track_heap_objects cfg
   then call (Ev_StartTrackingHeapObjects (isolate_ self))
   else ret tt) ;;
  context <-
    (if deserialize_mode_ self
     then
       restored <- ask (context_from_snapshot C)
                       (Ev_Context_FromSnapshot (isolate_ self) (kNodeContextIndex cfg)) ;;
       match restored with
       | None => abort "ToLocalChecked"
       | Some c =>
           call (Ev_SetIsolateUpForNode (isolate_ self) kErrorHandlers) ;;
           ret (Some c)
       end
     else ask (context_created C) (Ev_NewContext (isolate_ self))) ;;
  match context with
  | None => abort "!context.IsEmpty()"
  | Some context =>
      let env := mkEnvironment (isolate_data_ self) context (args_ self) (exec_args_ self)
                               [kIsMainThread; kOwnsProcessState; kOwnsInspector] in
      call (Ev_new_Environment env) ;;
      call (Ev_InitializeLibuv (v8_is_profiling cfg)) ;;
      call Ev_InitializeDiagnostics ;;
      exit_code <- (if HAVE_INSPECTOR_AND_V8_PLATFORM cfg
                    then ask (inspector_status C) Ev_InitializeInspector
                    else ret exit_code) ;;
      if negb (exit_code =? 0) then ret (Some env, exit_code)
      else
        ok <- ask (bootstrap_succeeds C) Ev_RunBootstrapping ;;
        ret (Some env, if ok then exit_code else 1)
  end.

Definition uv_loop_alive : Native bool := gets (loop_alive C).
Definition is_stopping : Native bool := gets (stopping C).

(** One pass through the body of the [do ... while] loop of [Run]; the
    result is the value of [more] when control reaches the loop condition
    (through [continue] or by falling off the end of the body). *)
Definition loop_body (self : NodeMainInstance) : Native bool :=
  call (Ev_uv_run UV_RUN_DEFAULT) ;;
  call (Ev_DrainVMTasks (isolate_ self)) ;;
  more <- uv_loop_alive ;;
  stop <- is_stopping ;;
  if more && negb stop then ret more
  else
    call Ev_RunBeforeExitCallbacks ;;
    alive <- uv_loop_alive ;;
    (if negb alive then call Ev_EmitBeforeExit else ret tt) ;;
    more <- uv_loop_alive ;;
    ret more.

(** The loop condition [more == true && !env->is_stopping()]. *)
Definition loop_condition (more : bool) : Native bool :=
  stop <- is_stopping ;;
  ret (Bool.eqb more true && negb stop).

(** One iteration: the body, then the condition. *)
Definition loop_iteration (self : NodeMainInstance) : Native bool :=
  more <- loop_body self ;;
  loop_condition more.

Fixpoint main_loop (fuel : nat) (self : NodeMainInstance) : Native unit :=
  match fuel with
  | O => out_of_fuel
  | S fuel' =>
      again <- loop_iteration self ;;
      if again then main_loop fuel' self else ret tt
  end.

(** The teardown at the end of [Run] (lines 150 to 161). *)
Definition teardown (self : NodeMainInstance) : Native unit :=
  call (Ev_set_can_call_into_js false) ;;
  call Ev_stop_sub_worker_contexts ;;
  call Ev_ResetStdio ;;
  call Ev_RunCleanup ;;
  call Ev_RunAtExit ;;
  call (Ev_DrainVMTasks (isolate_ self)) ;;
  call (Ev_CancelVMTasks (isolate_ self)) ;;
  (if LEAK_SANITIZER cfg then call Ev_lsan_do_leak_check else ret tt).

(** [Run()].  The scope objects ([Locker], [Isolate::Scope], [HandleScope],
    [Context::Scope], [AsyncCallbackScope], [SealHandleScope]) call nothing
    that the code looks at and are left out; [fuel] bounds the iterations of
    the main loop. *)
Definition Run (fuel : nat) (self : NodeMainInstance) : Native Z :=
  created <- CreateMainEnvironment self ;;
  let '(env, exit_code) := created in
  CHECK (isSome env) "(env) != nullptr" ;;
  exit_code <-
    (if exit_code =? 0 then
       call (Ev_push_async_ids 1 0) ;;
       call Ev_LoadEnvironment ;;
       call (Ev_pop_async_id 1) ;;
       call (Ev_Mark NODE_PERFORMANCE_MILESTONE_LOOP_START) ;;
       main_loop fuel self ;;
       call (Ev_Mark NODE_PERFORMANCE_MILESTONE_LOOP_EXIT) ;;
       call (Ev_set_trace_sync_io false) ;;
       code <- ask (exit_status C) Ev_EmitExit ;;
       call Ev_WaitForInspectorDisconnect ;;
       ret code
     else ret exit_code) ;;
  teardown self ;;
  ret exit_code.


(** The state of the collaborators after the calls of [log]. *)
Definition replay (log : list Event) (w : World) : World :=
  fold_left (fun w e => effect C e w) log w.

(** The calls of the teardown, in order. *)
Definition teardown_events (self : NodeMainInstance) : list Event :=
  [Ev_set_can_call_into_js false; Ev_stop_sub_worker_contexts; Ev_ResetStdio;
   Ev_RunCleanup; Ev_RunAtExit;
   Ev_DrainVMTasks (isolate_ self); Ev_CancelVMTasks (isolate_ self)]
  ++ (if LEAK_SANITIZER cfg then [Ev_lsan_do_leak_check] else []).

(** The state in which [CreateMainEnvironment] asks for the context, and
    the handle it gets there. *)
Definition context_world (self : NodeMainInstance) (w : World) : World :=
  if track_heap_objects cfg
  then effect C (Ev_StartTrackingHeapObjects (isolate_ self)) w
  else w.

Definition requested_context (self : NodeMainInstance) (w : World) : option Context :=
  if deserialize_mode_ self
  then context_from_snapshot C (context_world self w)
  else context_created C (context_world self w).

(** The state in which the owned constructor asks for the isolate. *)
Definition allocation_world (w : World) : World :=
  let created := Ev_ArrayBufferAllocator_Create (allocator_created C w) in
  if node_is_nwjs cfg
  then effect C (Ev_ArrayBufferAllocator_reset (allocator_created C w)) (effect C created w)
  else effect C created w.
End Instance.

Arguments replay {World} C log w.
Arguments call {World} C e _.
Arguments ask {World} C {A} answer e _.
Arguments NodeMainInstance_attach {World} C isolate event_loop platform args exec_args _.
Arguments Create {World} C isolate event_loop platform args exec_args _.
Arguments NodeMainInstance_owned {World} C cfg params event_loop platform args exec_args
  per_isolate_data_indexes _.
Arguments destroy {World} C self _.
Arguments Dispose {World} C self _.
Arguments CreateMainEnvironment {World} C cfg self _.
Arguments uv_loop_alive {World} C _.
Arguments is_stopping {World} C _.
Arguments loop_body {World} C self _.
Arguments loop_condition {World} C more _.
Arguments loop_iteration {World} C self _.
Arguments main_loop {World} C fuel self _.
Arguments teardown {World} C cfg self _.
Arguments Run {World} C cfg fuel self _.
Arguments context_world {World} C cfg self w.
Arguments requested_context {World} C cfg self w.
Arguments allocation_world {World} C cfg w.

(** The calls of the load phase, the main loop and the exit event. *)
Definition load_loop_or_exit (e : Event) : bool :=
  match e with
  | Ev_push_async_ids _ _ | Ev_LoadEnvironment | Ev_pop_async_id _ | Ev_Mark _
  | Ev_uv_run _ | Ev_RunBeforeExitCallbacks | Ev_EmitBeforeExit
  | Ev_set_trace_sync_io _ | Ev_EmitExit _ | Ev_WaitForInspectorDisconnect => true
  | _ => false
  end.

Definition is_Isolate_Initialize (e : Event) : bool :=
  match e with Ev_Isolate_Initialize _ _ => true | _ => false end.

Definition is_UnregisterIsolate (e : Event) : bool :=
  match e with Ev_UnregisterIsolate _ _ => true | _ => false end.

Definition is_RunBootstrapping (e : Event) : bool :=
  match e with Ev_RunBootstrapping _ => true | _ => false end.

(** *** Simulated collaborators, for the examples *)

(** A reactor with a number of pending work items and a stop request. *)
Record Sim : Type := mkSim {
  pending : nat;
  stop_requested : bool
}.

(** A reactor pass completes the pending work; when [hook_stops], the
    before-exit hooks schedule new work and request the stop. *)
Definition sim_effect (hook_stops : bool) (e : Event) (s : Sim) : Sim :=
  match e with
  | Ev_uv_run _ => mkSim 0 (stop_requested s)
  | Ev_RunBeforeExitCallbacks => if hook_stops then mkSim 1 true else s
  | _ => s
  end.

Definition simulator (inspector : Z) (bootstrap_ok hook_stops : bool)
  (context : option Context) : Collaborators Sim :=
  mkCollaborators (sim_effect hook_stops)
                  (fun _ => 11%nat) (fun _ => Some 22%nat)
                  (fun _ => context) (fun _ => context)
                  (fun _ => inspector) (fun _ => bootstrap_ok)
                  (fun s => Nat.ltb 0 (pending s)) stop_requested
                  (fun _ => 0).

Definition plain_build : Config := mkConfig false false false true false 0.
Definition nwjs_build : Config := mkConfig true false false true false 0.

Definition some_params : CreateParams := mkCreateParams None None.

(** An owned instance created by [plain_build] without a snapshot. *)
Definition owned_instance : NodeMainInstance :=
  mkNodeMainInstance ["prog"%string] [] (Some 11%nat) 22%nat 3%nat
    (Some (mkIsolateData 22%nat 4%nat 3%nat (Some 11%nat) None)) true false.

Definition attached_instance : NodeMainInstance :=
  mkNodeMainInstance ["prog"%string] [] None 22%nat 3%nat
    (Some (mkIsolateData 22%nat 4%nat 3%nat None None)) false false.

(** The simulated collaborators at rest, and with one work item pending. *)
Definition idle : Sim := mkSim 0 false.
Definition busy : Sim := mkSim 1 false.

(** All goes well; the inspector fails with status 9; no context is to be
    had; the before-exit hooks schedule work and request the stop. *)
Definition healthy : Collaborators Sim := simulator 0 true false (Some 5%nat).
Definition inspector_fails : Collaborators Sim := simulator 9 true false (Some 5%nat).
Definition no_context : Collaborators Sim := simulator 0 true false None.

(** *** Counting calls, and the phases of [Run] *)

Definition count (p : Event -> bool) (log : list Event) : nat :=
  List.length (filter p log).

Definition is_error_handlers (e : Event) : bool :=
  match e with Ev_SetIsolateUpForNode _ kErrorHandlers => true | _ => false end.

Definition is_uv_run (e : Event) : bool :=
  match e with Ev_uv_run _ => true | _ => false end.

Definition is_DrainVMTasks (e : Event) : bool :=
  match e with Ev_DrainVMTasks _ => true | _ => false end.

Definition is_RunBeforeExitCallbacks (e : Event) : bool :=
  match e with Ev_RunBeforeExitCallbacks => true | _ => false end.

Definition is_EmitBeforeExit (e : Event) : bool :=
  match e with Ev_EmitBeforeExit => true | _ => false end.

(** The calls that make or end an isolate: allocator, allocation,
    registration, initialisation, disposal, unregistration. *)
Definition isolate_lifetime_event (e : Event) : bool :=
  match e with
  | Ev_ArrayBufferAllocator_Create _ | Ev_ArrayBufferAllocator_reset _
  | Ev_Isolate_Allocate _ | Ev_RegisterIsolate _ _ _ | Ev_Isolate_Initialize _ _
  | Ev_Isolate_Dispose _ | Ev_UnregisterIsolate _ _ => true
  | _ => false
  end.

(** Neither of these, nor the installation of error handlers. *)
Definition leaves_isolate_alone (e : Event) : bool :=
  negb (isolate_lifetime_event e) && negb (is_error_handlers e).

(** The calls of the load phase, up to the start of the main loop, and the
    calls between the end of the loop and the exit event. *)
Definition load_events : list Event :=
  [Ev_push_async_ids 1 0; Ev_LoadEnvironment; Ev_pop_async_id 1;
   Ev_Mark NODE_PERFORMANCE_MILESTONE_LOOP_START].

Definition loop_exit_events : list Event :=
  [Ev_Mark NODE_PERFORMANCE_MILESTONE_LOOP_EXIT; Ev_set_trace_sync_io false].

Section Phases.
Variable World : Type.
Variable C : Collaborators World.
Variable cfg : Config.

(** [Run] from the success check on its exit code (lines 110 to 163). *)
Definition after_environment (fuel : nat) (self : NodeMainInstance) (exit_code : Z)
  : Native World Z :=
  exit_code <-
    (if exit_code =? 0 then
       call C (Ev_push_async_ids 1 0) ;;
       call C Ev_LoadEnvironment ;;
       call C (Ev_pop_async_id 1) ;;
       call C (Ev_Mark NODE_PERFORMANCE_MILESTONE_LOOP_START) ;;
       main_loop C fuel self ;;
       call C (Ev_Mark NODE_PERFORMANCE_MILESTONE_LOOP_EXIT) ;;
       call C (Ev_set_trace_sync_io false) ;;
       code <- ask C (exit_status C) Ev_EmitExit ;;
       call C Ev_WaitForInspectorDisconnect ;;
       ret code
     else ret exit_code) ;;
  teardown C cfg self ;;
  ret exit_code.

(** The life of an attached instance, as an embedder drives it: [Create],
    [Run], [Dispose]. *)
Definition attached_lifetime (fuel : nat) (isolate : Isolate) (event_loop : uv_loop_t)
  (platform : MultiIsolatePlatform) (args exec_args : list string) : Native World Z :=
  self <- Create C isolate event_loop platform args exec_args ;;
  exit_code <- Run C cfg fuel self ;;
  Dispose C self ;;
  ret exit_code.

(** A stop request that no call of a collaborator takes back. *)
Definition stop_is_final : Prop :=
  forall e w, stopping C w = true -> stopping C (effect C e w) = true.
End Phases.

Arguments after_environment {World} C cfg fuel self exit_code _.
Arguments stop_is_final {World} C.
Arguments attached_lifetime {World} C cfg fuel isolate event_loop platform args exec_args _.

End main_instance.

(** * Properties *)

(** ** The outcome monad *)

Section OutcomeFacts.
Variables Ev St : Type.

Lemma prepend_nil {A} (o : Outcome Ev St A) : prepend [] o = o.
Proof. destruct o; reflexivity. Qed.

Lemma prepend_app {A} (l1 l2 : list Ev) (o : Outcome Ev St A) :
  prepend l1 (prepend l2 o) = prepend (l1 ++ l2) o.
Proof. destruct o; simpl; rewrite app_assoc; reflexivity. Qed.

Lemma log_of_prepend {A} (l : list Ev) (o : Outcome Ev St A) :
  log_of (prepend l o) = l ++ log_of o.
Proof. destruct o; reflexivity. Qed.

Lemma state_of_prepend {A} (l : list Ev) (o : Outcome Ev St A) :
  state_of (prepend l o) = state_of o.
Proof. destruct o; reflexivity. Qed.

Lemma returns_prepend {A} (l : list Ev) (o : Outcome Ev St A) :
  returns (prepend l o) = returns o.
Proof. destruct o; reflexivity. Qed.

Lemma bind_ret_l {A B} (a : A) (f : A -> M Ev St B) s : bind (ret a) f s = f a s.
Proof. unfold bind, ret. apply prepend_nil. Qed.

Lemma bind_assoc {A B C} (m : M Ev St A) (f : A -> M Ev St B) (g : B -> M Ev St C) s :
  bind (bind m f) g s = bind m (fun a => bind (f a) g) s.
Proof.
  unfold bind. destruct (m s) as [a s1 l1| |]; try reflexivity.
  destruct (f a s1) as [b s2 l2| |]; simpl; try reflexivity.
  symmetry. apply prepend_app.
Qed.

Lemma bind_returned {A B} (m : M Ev St A) (f : A -> M Ev St B) s a s1 l1 :
  m s = Returned a s1 l1 -> bind m f s = prepend l1 (f a s1).
Proof. intros H. unfold bind. rewrite H. reflexivity. Qed.

Lemma prepend_inv_returned {A} (l1 : list Ev) (o : Outcome Ev St A) a s l :
  prepend l1 o = Returned a s l ->
  exists l2, o = Returned a s l2 /\ l = l1 ++ l2.
Proof.
  destruct o as [a' s' l'| |]; cbn; intros H; try discriminate H.
  injection H as -> -> <-. eauto.
Qed.

Lemma bind_inv_returned {A B} (m : M Ev St A) (f : A -> M Ev St B) s b s2 l :
  bind m f s = Returned b s2 l ->
  exists a s1 l1 l2,
    m s = Returned a s1 l1 /\ f a s1 = Returned b s2 l2 /\ l = l1 ++ l2.
Proof.
  unfold bind. destruct (m s) as [a s1 l1| |]; intros H; try discriminate H.
  apply prepend_inv_returned in H. destruct H as (l2 & H & ->).
  exists a, s1, l1, l2. auto.
Qed.
End OutcomeFacts.

Lemma uint64_incr_small (c : Z) :
  0 <= c < UINT64_MODULUS - 1 -> uint64_incr c = c + 1.
Proof. intros H. unfold uint64_incr. apply Z.mod_small. lia. Qed.

Lemma uint64_incr_range (c : Z) : 0 <= uint64_incr c < UINT64_MODULUS.
Proof. unfold uint64_incr. apply Z.mod_pos_bound. reflexivity. Qed.

(** Unfolds the monadic plumbing so that native code evaluates. *)
Ltac run_native :=
  cbv beta delta [bind ret gets modify emit abort out_of_fuel CHECK prepend] ; cbn.

(** ** The task-queue bridge *)

Module TaskQueueFacts.
Import task_queue.

Section BridgeFacts.
Variable Heap : Type.
Variable run_checkpoint : Script Heap -> Script Heap.
Variable run_call :
  Value -> Value -> list Value -> Script Heap -> LocalHandle Value * Script Heap.
Variables kPromiseRejectWithNoHandler kPromiseHandlerAddedAfterReject
          kPromiseRejectAfterResolved kPromiseResolveAfterResolved : Z.

(** C9, amended.  [EnqueueMicrotask] with an argument that is not a function
    dies on its [CHECK] - the process is aborted, no error is raised to the
    caller - and the microtask queue is as it was; with a function it
    appends that function to the native microtask queue, as its only engine
    call, and returns nothing. *)
Theorem EnqueueMicrotask_spec (args : FunctionCallbackInfo) (w : Script Heap) :
  (IsFunction (arg args 0) = false ->
   EnqueueMicrotask args w = Aborted "args[0]->IsFunction()" w []) /\
  (IsFunction (arg args 0) = true ->
   EnqueueMicrotask args w =
     Returned tt (enqueued (arg args 0) w) [IsolateEnqueueMicrotask (arg args 0)]).
Proof.
  unfold EnqueueMicrotask, Isolate_EnqueueMicrotask, enqueued.
  split; intros H; run_native; rewrite H; reflexivity.
Qed.

(** C1, amended.  [RunNextTicksNative] starts with a microtask checkpoint
    exactly when both flags are clear.  If both flags are clear afterwards it
    returns true and calls nothing else.  Otherwise, if a tick callback is
    registered, it calls that callback exactly once, on the process object
    and without arguments, and returns whether the call produced a value (no
    exception); if none is registered it dies on its [CHECK] without calling
    anything. *)
Theorem RunNextTicksNative_spec (w : Script Heap) :
  let run := RunNextTicksNative run_checkpoint run_call w in
  let w1 := after_checkpoint run_checkpoint w in
  (flags_clear w = true <-> hd_error (log_of run) = Some PerformCheckpoint) /\
  (flags_clear w1 = true -> run = Returned true w1 (checkpoint_log w)) /\
  (flags_clear w1 = false ->
   forall callback, tick_callback_function (env w1) = Some callback ->
   let call := run_call callback (process_object (env w1)) [] w1 in
   run = Returned (negb (IsEmpty (fst call))) (snd call)
           (checkpoint_log w ++ [FunctionCall callback (process_object (env w1)) []])) /\
  (flags_clear w1 = false ->
   tick_callback_function (env w1) = None ->
   run = Aborted "!callback.IsEmpty()" w1 (checkpoint_log w)).
Proof.
  unfold RunNextTicksNative, MicrotasksScope_PerformCheckpoint, Function_Call,
    after_checkpoint, checkpoint_log.
  run_native.
  destruct (flags_clear w) eqn:F0; run_native.
  - destruct (flags_clear (run_checkpoint w)) eqn:F1; run_native.
    + repeat split; try reflexivity; try discriminate.
    + destruct (tick_callback_function (env (run_checkpoint w))) as [cb|] eqn:Cb;
        run_native.
      * destruct (run_call cb _ [] (run_checkpoint w)) as [r w2] eqn:Call; cbn.
        repeat split; try reflexivity; try discriminate.
        intros _ callback [= <-]. rewrite Call. reflexivity.
      * repeat split; try reflexivity; try discriminate.
  - rewrite F0; run_native.
    destruct (tick_callback_function (env w)) as [cb|] eqn:Cb; run_native.
    + destruct (run_call cb _ [] w) as [r w2] eqn:Call; cbn.
      repeat split; try reflexivity; try discriminate.
      intros _ callback [= <-]. rewrite Call. reflexivity.
    + repeat split; try reflexivity; try discriminate.
Qed.

(** C3.  Without an environment for the isolate's current context,
    [PromiseRejectCallback] returns at once: no call is made and the process
    state, counters included, is untouched. *)
Theorem PromiseRejectCallback_no_environment
  (message : PromiseRejectMessage) (p : Process Heap) :
  current_environment p = None ->
  PromiseRejectCallback run_call kPromiseRejectWithNoHandler
    kPromiseHandlerAddedAfterReject kPromiseRejectAfterResolved
    kPromiseResolveAfterResolved message p = Returned tt p [].
Proof.
  intros H. unfold PromiseRejectCallback. run_native. rewrite H. reflexivity.
Qed.

(** Before its rejection callback is registered an environment cannot take
    any event: the [CHECK] comes before the event is looked at. *)
Lemma rejection_callback_CHECK
  (message : PromiseRejectMessage) (p : Process Heap) (w : Script Heap) :
  current_environment p = Some w ->
  promise_reject_callback (env w) = None ->
  PromiseRejectCallback run_call kPromiseRejectWithNoHandler
    kPromiseHandlerAddedAfterReject kPromiseRejectAfterResolved
    kPromiseResolveAfterResolved message p = Aborted "!callback.IsEmpty()" p [].
Proof.
  intros He Hc. unfold PromiseRejectCallback. run_native. rewrite He. run_native.
  rewrite Hc. reflexivity.
Qed.

(** C2, amended.  With an environment whose rejection callback is
    registered, [PromiseRejectCallback] returns, and: on reject-with-no-handler
    it increments [unhandledRejections] (a 64-bit counter) by one, leaves
    [rejectionsHandledAfter] alone, traces both and dispatches the rejection
    reason; on handler-added-after-reject it increments
    [rejectionsHandledAfter] by one, leaves [unhandledRejections] alone,
    traces both and dispatches [undefined]; on resolve-after-resolved and
    reject-after-resolved it changes no counter and dispatches the supplied
    value; on any other event it changes nothing and calls nothing.  An empty
    value handle is dispatched as [undefined]. *)
Theorem PromiseRejectCallback_spec
  (message : PromiseRejectMessage) (p : Process Heap) (w : Script Heap)
  (callback : Value) :
  NoDup [kPromiseRejectWithNoHandler; kPromiseHandlerAddedAfterReject;
         kPromiseRejectAfterResolved; kPromiseResolveAfterResolved] ->
  current_environment p = Some w ->
  promise_reject_callback (env w) = Some callback ->
  let run := PromiseRejectCallback run_call kPromiseRejectWithNoHandler
               kPromiseHandlerAddedAfterReject kPromiseRejectAfterResolved
               kPromiseResolveAfterResolved message p in
  let event := GetEvent message in
  returns run = true /\
  (event = kPromiseRejectWithNoHandler ->
   unhandledRejections (state_of run) = uint64_incr (unhandledRejections p) /\
   rejectionsHandledAfter (state_of run) = rejectionsHandledAfter p /\
   log_of run =
     [trace_counter (uint64_incr (unhandledRejections p)) (rejectionsHandledAfter p);
      dispatch callback message (or_undefined (GetValue message))]) /\
  (event = kPromiseHandlerAddedAfterReject ->
   unhandledRejections (state_of run) = unhandledRejections p /\
   rejectionsHandledAfter (state_of run) = uint64_incr (rejectionsHandledAfter p) /\
   log_of run =
     [trace_counter (unhandledRejections p) (uint64_incr (rejectionsHandledAfter p));
      dispatch callback message Undefined]) /\
  (event = kPromiseResolveAfterResolved \/ event = kPromiseRejectAfterResolved ->
   unhandledRejections (state_of run) = unhandledRejections p /\
   rejectionsHandledAfter (state_of run) = rejectionsHandledAfter p /\
   log_of run = [dispatch callback message (or_undefined (GetValue message))]) /\
  (~ In event [kPromiseRejectWithNoHandler; kPromiseHandlerAddedAfterReject;
               kPromiseRejectAfterResolved; kPromiseResolveAfterResolved] ->
   run = Returned tt p []).
Proof.
  clear run_checkpoint. intros Distinct Henv Hcb.
  unfold PromiseRejectCallback, in_environment, Function_Call, trace_rejections,
    trace_counter, dispatch.
  run_native. rewrite Henv. run_native. rewrite Hcb.
  inversion Distinct as [|? ? N0 D1]; subst.
  inversion D1 as [|? ? N1 D2]; subst.
  inversion D2 as [|? ? N2 D3]; subst.
  cbn in N0, N1, N2.
  destruct (Z.eqb_spec (GetEvent message) kPromiseRejectWithNoHandler) as [E0|E0];
    [|destruct (Z.eqb_spec (GetEvent message) kPromiseHandlerAddedAfterReject) as [E1|E1];
      [|destruct (Z.eqb_spec (GetEvent message) kPromiseResolveAfterResolved) as [E2|E2];
        [|destruct (Z.eqb_spec (GetEvent message) kPromiseRejectAfterResolved) as [E3|E3]]]];
    run_native;
    try (destruct (run_call callback Undefined _ w) as [r w'] eqn:Call; cbn);
    (split; [reflexivity|]);
    (split; [intros E; try (exfalso; congruence); auto|]);
    (split; [intros E; try (exfalso; intuition congruence); auto|]);
    (split; [intros E; try (exfalso; intuition congruence); auto|]);
    intros E; try reflexivity; exfalso; apply E; cbn; auto.
Qed.

End BridgeFacts.

(** At a state with a tick pending and no tick callback registered yet,
    [RunNextTicksNative] neither calls a callback nor returns a value: the
    behaviour C1 promises for every state fails here. *)
Lemma RunNextTicksNative_unregistered :
  flags_clear (after_checkpoint checkpoint_scheduling_tick unregistered) = false /\
  log_of (RunNextTicksNative checkpoint_scheduling_tick call_clearing_tick unregistered) = [] /\
  returns (RunNextTicksNative checkpoint_scheduling_tick call_clearing_tick unregistered) = false.
Proof. repeat split. Qed.

Lemma RunNextTicksNative_spec_witness :
  RunNextTicksNative checkpoint_scheduling_tick call_clearing_tick bootstrapped =
  Returned true bootstrapped [PerformCheckpoint; FunctionCall (Function 1) (Object 0) []].
Proof.
  apply (proj1 (proj2 (proj2
           (@RunNextTicksNative_spec unit checkpoint_scheduling_tick call_clearing_tick
                                    bootstrapped)))); reflexivity.
Defined.

(** With an environment but no rejection callback registered yet, a
    reject-with-no-handler event neither increments [unhandledRejections]
    nor dispatches anything: the process is aborted first. *)
Lemma PromiseRejectCallback_unregistered :
  current_environment process_before_bootstrap = Some unregistered /\
  GetEvent rejected_no_handler = 0 /\
  PromiseRejectCallback call_clearing_tick 0 1 2 3 rejected_no_handler
    process_before_bootstrap =
  Aborted "!callback.IsEmpty()" process_before_bootstrap [].
Proof. repeat split. Qed.

Lemma PromiseRejectCallback_spec_witness :
  unhandledRejections
    (state_of (PromiseRejectCallback call_clearing_tick 0 1 2 3 rejected_no_handler
                 process_after_bootstrap)) = 8 /\
  rejectionsHandledAfter
    (state_of (PromiseRejectCallback call_clearing_tick 0 1 2 3 rejected_no_handler
                 process_after_bootstrap)) = 3 /\
  log_of (PromiseRejectCallback call_clearing_tick 0 1 2 3 rejected_no_handler
            process_after_bootstrap) =
    [TraceCounter2 "rejections" "unhandled" 8 "handledAfter" 3;
     FunctionCall (Function 2) Undefined [Number 0; Promise 5; Number 42]].
Proof.
  assert (D : NoDup [0; 1; 2; 3]).
  { repeat constructor; cbn; intuition discriminate. }
  exact (proj1 (proj2 (@PromiseRejectCallback_spec unit call_clearing_tick 0 1 2 3
                         rejected_no_handler process_after_bootstrap
                         bootstrapped (Function 2) D
                         (eq_refl : current_environment process_after_bootstrap
                                    = Some bootstrapped)
                         (eq_refl : promise_reject_callback (env bootstrapped)
                                    = Some (Function 2))))
               eq_refl).
Defined.

Lemma PromiseRejectCallback_no_environment_witness :
  PromiseRejectCallback call_clearing_tick 0 1 2 3 rejected_no_handler
    process_without_environment = Returned tt process_without_environment [].
Proof.
  apply (@PromiseRejectCallback_no_environment unit call_clearing_tick 0 1 2 3
           rejected_no_handler process_without_environment).
  reflexivity.
Defined.

(** An argument that is not a function aborts the process: no error comes
    back to the caller, so no type error that a script could observe. *)
Lemma EnqueueMicrotask_not_a_type_error :
  IsFunction (arg [Number 1] 0) = false /\
  returns (EnqueueMicrotask [Number 1] bootstrapped) = false.
Proof. repeat split. Qed.

Lemma EnqueueMicrotask_spec_witness :
  EnqueueMicrotask [Function 9] bootstrapped =
  Returned tt (mkScript (env bootstrapped) [Function 9] tt)
           [IsolateEnqueueMicrotask (Function 9)].
Proof.
  apply (proj2 (@EnqueueMicrotask_spec unit [Function 9] bootstrapped)). reflexivity.
Defined.

End TaskQueueFacts.

(** ** The engine-instance manager *)

Module MainInstanceFacts.
Import main_instance.

(** Unfolds the calls to the collaborators as well. *)
Ltac run_instance :=
  cbv beta delta [call ask bind ret gets modify emit abort out_of_fuel CHECK prepend
                  uv_loop_alive is_stopping];
  cbn.

Section InstanceFacts.
Variable World : Type.
Variable C : Collaborators World.
Variable cfg : Config.

(** *** The owned constructor *)

Section Owned.
Variable params : CreateParams.
Variable event_loop : uv_loop_t.
Variable platform : MultiIsolatePlatform.
Variables args exec_args : list string.
Variable per_isolate_data_indexes : option (list nat).

(** The owned constructor gets as far as its isolate allows: without an
    isolate it stops before any registration. *)
Lemma owned_unallocated (w : World) :
  isolate_allocated C (allocation_world C cfg w) = None ->
  exists s log,
    NodeMainInstance_owned C cfg params event_loop platform args exec_args
      per_isolate_data_indexes w = Aborted "(isolate_) != nullptr" s log /\
    forallb (fun e => negb (is_Isolate_Initialize e)) log = true.
Proof.
  unfold NodeMainInstance_owned, allocation_world. intros H.
  run_instance. destruct (node_is_nwjs cfg); run_instance; rewrite H; run_instance;
    eexists; eexists; split; reflexivity.
Qed.

(** With an isolate, everything up to the check of the external references
    happens in the order of the source. *)
Lemma owned_allocated (w : World) (isolate : Isolate) :
  isolate_allocated C (allocation_world C cfg w) = Some isolate ->
  let created := allocator_created C w in
  let allocator := if node_is_nwjs cfg then None else Some created in
  let ps := mkCreateParams allocator (external_references params) in
  let deserialize := isSome per_isolate_data_indexes in
  let data := mkIsolateData isolate event_loop platform allocator
                            per_isolate_data_indexes in
  let start :=
    [Ev_ArrayBufferAllocator_Create created]
    ++ (if node_is_nwjs cfg then [Ev_ArrayBufferAllocator_reset created] else [])
    ++ [Ev_Isolate_Allocate (Some isolate);
        Ev_RegisterIsolate platform isolate event_loop;
        Ev_SetIsolateCreateParamsForNode;
        Ev_Isolate_Initialize isolate ps] in
  let finish :=
    [Ev_new_IsolateData data; Ev_SetIsolateUpForNode isolate kMisc]
    ++ (if negb deserialize then [Ev_SetIsolateUpForNode isolate kErrorHandlers] else []) in
  NodeMainInstance_owned C cfg params event_loop platform args exec_args
      per_isolate_data_indexes w =
    if implb deserialize (isSome (external_references params))
    then Returned (mkNodeMainInstance args exec_args allocator isolate platform
                                      (Some data) true deserialize, ps)
                  (replay C (start ++ finish) w) (start ++ finish)
    else Aborted "!(deserialize_mode_) || (params->external_references != nullptr)"
                 (replay C start w) start.
Proof.
  unfold NodeMainInstance_owned, allocation_world, replay. intros H.
  run_instance.
  destruct (node_is_nwjs cfg); run_instance; rewrite H; run_instance;
    destruct per_isolate_data_indexes, (external_references params); reflexivity.
Qed.

(** Searches a log that is known event by event. *)
Ltac scan_log n H :=
  do 10 (try (destruct n as [|n]; [cbn in H; try discriminate H|]));
  try (cbn in H; destruct n; discriminate H).

(** C4.  An instance built by the owned constructor is in deserialize mode
    exactly when a snapshot-index table was supplied; and a construction
    with an index table but without external references never returns an
    instance: it dies on a [CHECK].  (With an isolate and with the external
    references that an index table asks for, the constructor does return.) *)
Theorem owned_deserialize_mode (w : World) :
  let run := NodeMainInstance_owned C cfg params event_loop platform args exec_args
               per_isolate_data_indexes w in
  (forall inst ps w' log,
     run = Returned (inst, ps) w' log ->
     deserialize_mode_ inst = isSome per_isolate_data_indexes) /\
  (isSome per_isolate_data_indexes = true ->
   external_references params = None ->
   exists check w' log, run = Aborted check w' log) /\
  (isolate_allocated C (allocation_world C cfg w) <> None ->
   implb (isSome per_isolate_data_indexes) (isSome (external_references params)) = true ->
   returns run = true).
Proof.
  cbv zeta.
  destruct (isolate_allocated C (allocation_world C cfg w)) as [isolate|] eqn:A.
  - rewrite (owned_allocated w _ A). cbv zeta.
    destruct (implb _ _) eqn:I.
    + split; [|split].
      * intros inst ps w' log [= <- _ _ _]. reflexivity.
      * intros Hi He. rewrite Hi, He in I. discriminate I.
      * reflexivity.
    + split; [|split].
      * discriminate.
      * intros _ _. eauto.
      * intros _ [=].
  - destruct (owned_unallocated w A) as (s & log & -> & _).
    split; [|split].
    + discriminate.
    + intros _ _. eauto.
    + intros N. contradiction.
Qed.

(** C5.  In every run of the owned constructor an [Isolate::Initialize] is
    preceded by the registration of that isolate with the platform, and a
    construction that returns did initialise its isolate; the instance it
    returns owns the isolate it registered, and its destructor disposes that
    isolate and then unregisters it from that platform - one
    [UnregisterIsolate] and no other call.  On an instance that does not own
    its isolate, as the attaching constructor builds them, the destructor
    does nothing. *)
Theorem owned_registered_before_initialize (w : World) :
  let run := NodeMainInstance_owned C cfg params event_loop platform args exec_args
               per_isolate_data_indexes w in
  (forall n isolate ps,
     nth_error (log_of run) n = Some (Ev_Isolate_Initialize isolate ps) ->
     exists m, (m < n)%nat /\
       nth_error (log_of run) m = Some (Ev_RegisterIsolate platform isolate event_loop)) /\
  (forall inst ps w' log,
     run = Returned (inst, ps) w' log ->
     In (Ev_Isolate_Initialize (isolate_ inst) ps) log /\
     owns_isolate_ inst = true /\ platform_ inst = platform /\
     forall w2,
       destroy C inst w2 =
         Returned tt
           (replay C [Ev_Isolate_Dispose (isolate_ inst);
                      Ev_UnregisterIsolate platform (isolate_ inst)] w2)
           [Ev_Isolate_Dispose (isolate_ inst);
            Ev_UnregisterIsolate platform (isolate_ inst)]) /\
  (forall attached w2,
     owns_isolate_ attached = false -> destroy C attached w2 = Returned tt w2 []) /\
  (forall isolate loop0 platform0 args0 exec_args0 w0 attached w' log w2,
     NodeMainInstance_attach C isolate loop0 platform0 args0 exec_args0 w0
       = Returned attached w' log ->
     destroy C attached w2 = Returned tt w2 []).
Proof.
  cbv zeta. split; [|split; [|split]].
  - intros n isolate ps H.
    destruct (isolate_allocated C (allocation_world C cfg w)) as [allocated|] eqn:A.
    + rewrite (owned_allocated w _ A) in *. cbv zeta in *.
      destruct (node_is_nwjs cfg), per_isolate_data_indexes,
        (external_references params); cbn in H |- *; scan_log n H;
        injection H as <- <-;
        first [ exists 2%nat; split; [lia|reflexivity]
              | exists 3%nat; split; [lia|reflexivity] ].
    + destruct (owned_unallocated w A) as (s & log & E & NoInit).
      rewrite E in H. cbn in H. apply nth_error_In in H.
      rewrite forallb_forall in NoInit. apply NoInit in H. discriminate H.
  - intros inst ps w' log H.
    destruct (isolate_allocated C (allocation_world C cfg w)) as [allocated|] eqn:A.
    + rewrite (owned_allocated w _ A) in H. cbv zeta in H.
      destruct (implb _ _); [|discriminate H].
      injection H as <- <- _ <-. cbn.
      split; [|split; [reflexivity|split; [reflexivity|reflexivity]]].
      destruct (node_is_nwjs cfg); cbn; intuition.
    + destruct (owned_unallocated w A) as (s & log' & E & _).
      rewrite E in H. discriminate H.
  - intros attached w2 H. unfold destroy. rewrite H. reflexivity.
  - intros isolate loop0 platform0 args0 exec_args0 w0 attached w' log w2 H.
    injection H as <- _ _. reflexivity.
Qed.

(** C10.  When [node_is_nwjs] is set, the owned constructor starts by
    creating an allocator and discarding it at once; any
    [Isolate::Initialize] it then makes is passed parameters without an
    allocator; the instance it returns owns its isolate, was initialised,
    and holds no allocator - neither itself nor in its isolate data; and it
    does return such an instance whenever the engine hands out an isolate
    and the external references that a snapshot-index table asks for are
    there: the isolate is initialised without an allocator and an owning
    instance without an allocator comes back.  So owning an isolate does not
    mean having an allocator. *)
Theorem nwjs_owned_without_allocator (w : World) :
  node_is_nwjs cfg = true ->
  let run := NodeMainInstance_owned C cfg params event_loop platform args exec_args
               per_isolate_data_indexes w in
  (exists rest,
     log_of run = Ev_ArrayBufferAllocator_Create (allocator_created C w)
                  :: Ev_ArrayBufferAllocator_reset (allocator_created C w) :: rest) /\
  (forall isolate ps,
     In (Ev_Isolate_Initialize isolate ps) (log_of run) ->
     array_buffer_allocator ps = None) /\
  (forall inst ps w' log,
     run = Returned (inst, ps) w' log ->
     owns_isolate_ inst = true /\
     In (Ev_Isolate_Initialize (isolate_ inst) ps) log /\
     array_buffer_allocator_ inst = None /\
     array_buffer_allocator ps = None /\
     option_map data_allocator (isolate_data_ inst) = Some None) /\
  (forall isolate,
     isolate_allocated C (allocation_world C cfg w) = Some isolate ->
     implb (isSome per_isolate_data_indexes) (isSome (external_references params)) = true ->
     exists inst ps w' log,
       run = Returned (inst, ps) w' log /\
       isolate_ inst = isolate /\
       owns_isolate_ inst = true /\
       array_buffer_allocator_ inst = None /\
       option_map data_allocator (isolate_data_ inst) = Some None /\
       In (Ev_Isolate_Initialize isolate ps) log /\
       array_buffer_allocator ps = None).
Proof.
  intros Nw. cbv zeta.
  destruct (isolate_allocated C (allocation_world C cfg w)) as [allocated|] eqn:A.
  - rewrite (owned_allocated w _ A). cbv zeta. rewrite Nw.
    split; [|split; [|split]].
    + destruct (implb _ _); cbn; eauto.
    + intros isolate ps H.
      destruct (implb _ _), per_isolate_data_indexes; cbn in H;
        repeat (destruct H as [H|H]; [try discriminate H; injection H as _ <-; reflexivity|]);
        contradiction.
    + intros inst ps w' log H.
      destruct (implb _ _); [|discriminate H].
      injection H as <- <- _ <-. cbn. intuition.
    + intros isolate [= <-] Refs. rewrite Refs.
      do 4 eexists. split; [reflexivity|]. cbn.
      repeat split; try reflexivity.
      destruct per_isolate_data_indexes; cbn; intuition.
  - revert A. unfold allocation_world, NodeMainInstance_owned. rewrite Nw. intros A.
    run_instance. rewrite A. run_instance.
    split; [eauto|split; [|split]].
    + intros isolate ps [H|[H|[H|[]]]]; discriminate H.
    + discriminate.
    + intros isolate [=].
Qed.

End Owned.
(** *** [CreateMainEnvironment] *)

Section MainEnvironment.
Variable self : NodeMainInstance.

(** Without a context [CreateMainEnvironment] dies before it builds an
    environment. *)
Lemma CreateMainEnvironment_no_context (w : World) :
  requested_context C cfg self w = None ->
  exists check s log, CreateMainEnvironment C cfg self w = Aborted check s log.
Proof.
  unfold requested_context, context_world, CreateMainEnvironment. intros H.
  run_instance.
  destruct (track_heap_objects cfg), (deserialize_mode_ self);
    run_instance; rewrite H; run_instance; eauto.
Qed.

(** With a context it runs to its end, in the order of the source. *)
Lemma CreateMainEnvironment_run (w : World) (context : Context) :
  requested_context C cfg self w = Some context ->
  let env := mkEnvironment (isolate_data_ self) context (args_ self) (exec_args_ self)
                           [kIsMainThread; kOwnsProcessState; kOwnsInspector] in
  let built :=
    (if track_heap_objects cfg then [Ev_StartTrackingHeapObjects (isolate_ self)] else [])
    ++ (if deserialize_mode_ self
        then [Ev_Context_FromSnapshot (isolate_ self) (kNodeContextIndex cfg) (Some context);
              Ev_SetIsolateUpForNode (isolate_ self) kErrorHandlers]
        else [Ev_NewContext (isolate_ self) (Some context)])
    ++ [Ev_new_Environment env; Ev_InitializeLibuv (v8_is_profiling cfg);
        Ev_InitializeDiagnostics] in
  let status :=
    if HAVE_INSPECTOR_AND_V8_PLATFORM cfg then inspector_status C (replay C built w) else 0 in
  let inspected :=
    built ++ (if HAVE_INSPECTOR_AND_V8_PLATFORM cfg
              then [Ev_InitializeInspector status] else []) in
  let ok := bootstrap_succeeds C (replay C inspected w) in
  let bootstrapped := inspected ++ [Ev_RunBootstrapping ok] in
  CreateMainEnvironment C cfg self w =
    if negb (status =? 0)
    then Returned (Some env, status) (replay C inspected w) inspected
    else Returned (Some env, if ok then status else 1) (replay C bootstrapped w) bootstrapped.
Proof.
  unfold requested_context, context_world, CreateMainEnvironment, replay. intros H.
  run_instance.
  destruct (track_heap_objects cfg), (deserialize_mode_ self);
    run_instance; rewrite H; run_instance;
    destruct (HAVE_INSPECTOR_AND_V8_PLATFORM cfg); run_instance;
    try (match goal with
         | |- context [inspector_status C ?x =? 0] =>
             destruct (inspector_status C x =? 0) eqn:S
         end; run_instance);
    reflexivity.
Qed.

(** C6, amended.  Whenever the execution context can be had,
    [CreateMainEnvironment] returns an environment (a non-null pointer)
    together with an exit code: if the inspector was initialised and
    answered a nonzero status, that status is the exit code, the
    initialisation is the last call made and no bootstrapping is run; if the
    bootstrapping ran and failed, the exit code is 1; if it ran and
    succeeded, the exit code is 0; and one of these is the case. *)
Theorem CreateMainEnvironment_spec (w : World) (context : Context) :
  requested_context C cfg self w = Some context ->
  let run := CreateMainEnvironment C cfg self w in
  let log := log_of run in
  exists env code,
    run = Returned (Some env, code) (replay C log w) log /\
    env_context env = context /\
    (forall status,
       In (Ev_InitializeInspector status) log -> status <> 0 ->
       code = status /\
       last log Ev_InitializeDiagnostics = Ev_InitializeInspector status /\
       forallb (fun e => negb (is_RunBootstrapping e)) log = true) /\
    (In (Ev_RunBootstrapping false) log -> code = 1) /\
    (In (Ev_RunBootstrapping true) log -> code = 0) /\
    ((exists status, status <> 0 /\ In (Ev_InitializeInspector status) log) \/
     (exists ok, last log Ev_InitializeDiagnostics = Ev_RunBootstrapping ok)).
Proof.
  intros H. cbv zeta. rewrite (CreateMainEnvironment_run w context H). cbv zeta.
  destruct (HAVE_INSPECTOR_AND_V8_PLATFORM cfg).
  - remember (inspector_status C _) as status eqn:Es. clear Es.
    destruct (Z.eqb_spec status 0) as [Z|NZ]; cbn [negb log_of].
    + subst status.
      remember (bootstrap_succeeds C _) as ok eqn:Eo. clear Eo.
      eexists. eexists. split; [reflexivity|]. split; [reflexivity|].
      destruct (track_heap_objects cfg), (deserialize_mode_ self), ok; cbn;
        (split; [intros status Hin Hs;
                 repeat (destruct Hin as [Hin|Hin]; [try discriminate Hin|]);
                 try contradiction; injection Hin as <-; contradiction|]);
        (split; [intros Hin;
                 repeat (destruct Hin as [Hin|Hin]; [try discriminate Hin|]);
                 try contradiction; reflexivity|]);
        (split; [intros Hin;
                 repeat (destruct Hin as [Hin|Hin]; [try discriminate Hin|]);
                 try contradiction; reflexivity|]);
        right; eexists; reflexivity.
    + eexists. eexists. split; [reflexivity|]. split; [reflexivity|].
      destruct (track_heap_objects cfg), (deserialize_mode_ self); cbn;
        (split; [intros status' Hin Hs;
                 repeat (destruct Hin as [Hin|Hin]; [try discriminate Hin|]);
                 try contradiction; injection Hin as <-; auto|]);
        (split; [intros Hin;
                 repeat (destruct Hin as [Hin|Hin]; [try discriminate Hin|]);
                 contradiction|]);
        (split; [intros Hin;
                 repeat (destruct Hin as [Hin|Hin]; [try discriminate Hin|]);
                 contradiction|]);
        left; exists status; (split; [assumption|cbn; intuition]).
  - cbn [Z.eqb negb log_of].
    remember (bootstrap_succeeds C _) as ok eqn:Eo. clear Eo.
    eexists. eexists. split; [reflexivity|]. split; [reflexivity|].
    destruct (track_heap_objects cfg), (deserialize_mode_ self), ok; cbn;
      (split; [intros status Hin Hs;
               repeat (destruct Hin as [Hin|Hin]; [try discriminate Hin|]);
               contradiction|]);
      (split; [intros Hin;
               repeat (destruct Hin as [Hin|Hin]; [try discriminate Hin|]);
               try contradiction; reflexivity|]);
      (split; [intros Hin;
               repeat (destruct Hin as [Hin|Hin]; [try discriminate Hin|]);
               try contradiction; reflexivity|]);
      right; eexists; reflexivity.
Qed.

(** What [Run] relies on: an environment that was returned is not null and
    none of the calls made for it belongs to the load phase, the main loop
    or the exit event. *)
Lemma CreateMainEnvironment_returned (w w1 : World) env code log1 :
  CreateMainEnvironment C cfg self w = Returned (env, code) w1 log1 ->
  isSome env = true /\ forallb (fun e => negb (load_loop_or_exit e)) log1 = true.
Proof.
  intros H.
  destruct (requested_context C cfg self w) as [context|] eqn:Ctx.
  - rewrite (CreateMainEnvironment_run w context Ctx) in H. cbv zeta in H.
    destruct (negb _) in H; injection H as <- _ _ <-; split; try reflexivity;
      destruct (track_heap_objects cfg), (deserialize_mode_ self),
        (HAVE_INSPECTOR_AND_V8_PLATFORM cfg); reflexivity.
  - destruct (CreateMainEnvironment_no_context w Ctx) as (c & s & l & E).
    rewrite E in H. discriminate H.
Qed.

End MainEnvironment.
(** *** [Dispose] *)

(** [Dispose] is for attached instances only: it drains the tasks of the
    isolate and disposes nothing. *)
Lemma Dispose_attached (self : NodeMainInstance) (w : World) :
  Dispose C self w =
    if owns_isolate_ self then Aborted "!owns_isolate_" w []
    else Returned tt (effect C (Ev_DrainTasks (platform_ self) (isolate_ self)) w)
                  [Ev_DrainTasks (platform_ self) (isolate_ self)].
Proof.
  unfold Dispose, destroy. destruct (owns_isolate_ self); reflexivity.
Qed.

(** *** [Run] *)

Section Running.
Variable self : NodeMainInstance.

Lemma teardown_run (w : World) :
  teardown C cfg self w =
    Returned tt (replay C (teardown_events cfg self) w) (teardown_events cfg self).
Proof.
  unfold teardown, teardown_events, replay. run_instance.
  destruct (LEAK_SANITIZER cfg); reflexivity.
Qed.

(** The body of the loop always reaches the loop condition. *)
Lemma loop_iteration_returns (w : World) :
  exists again w1 log,
    loop_iteration C self w = Returned again w1 log /\
    w1 = replay C log w /\
    hd_error log = Some (Ev_uv_run UV_RUN_DEFAULT).
Proof.
  unfold loop_iteration, loop_body, loop_condition, replay. run_instance.
  repeat match goal with
         | |- context [if ?b then _ else _] => destruct b eqn:?; run_instance
         end;
    do 3 eexists; repeat split.
Qed.

(** One iteration, spelled out. *)
Lemma loop_iteration_run (w : World) :
  let passed := [Ev_uv_run UV_RUN_DEFAULT; Ev_DrainVMTasks (isolate_ self)] in
  let drained := replay C passed w in
  let hooked := effect C Ev_RunBeforeExitCallbacks drained in
  let ended := if loop_alive C hooked then hooked else effect C Ev_EmitBeforeExit hooked in
  loop_iteration C self w =
    if loop_alive C drained && negb (stopping C drained)
    then Returned true drained passed
    else Returned (loop_alive C ended && negb (stopping C ended)) ended
           (passed ++ Ev_RunBeforeExitCallbacks
                   :: (if loop_alive C hooked then [] else [Ev_EmitBeforeExit])).
Proof.
  unfold loop_iteration, loop_body, loop_condition, replay. run_instance.
  destruct (loop_alive C (effect C (Ev_DrainVMTasks (isolate_ self))
                            (effect C (Ev_uv_run UV_RUN_DEFAULT) w))) eqn:A0;
    destruct (stopping C (effect C (Ev_DrainVMTasks (isolate_ self))
                            (effect C (Ev_uv_run UV_RUN_DEFAULT) w))) eqn:S0;
    run_instance; rewrite ?A0, ?S0; run_instance; try reflexivity;
    match goal with
    | |- context [loop_alive C (effect C Ev_RunBeforeExitCallbacks ?x)] =>
        destruct (loop_alive C (effect C Ev_RunBeforeExitCallbacks x)) eqn:A1
    end; run_instance; rewrite ?A1; run_instance;
    first [ reflexivity
          | match goal with
            | |- context [Bool.eqb ?b true] => destruct b; reflexivity
            end ].
Qed.

Lemma main_loop_step (fuel : nat) (w : World) again w1 log :
  loop_iteration C self w = Returned again w1 log ->
  main_loop C (S fuel) self w =
    if again then prepend log (main_loop C fuel self w1) else Returned tt w1 log.
Proof.
  intros H. cbn [main_loop]. erewrite bind_returned; [|exact H].
  destruct again; [reflexivity|]. cbn. rewrite app_nil_r. reflexivity.
Qed.



(** Whenever [Run] returns, the teardown was the last thing it did. *)
Lemma Run_ends_with_teardown (fuel : nat) (w w2 : World) code log :
  Run C cfg fuel self w = Returned code w2 log ->
  exists before, log = before ++ teardown_events cfg self.
Proof.
  unfold Run. intros H.
  apply bind_inv_returned in H. destruct H as ([env c0] & s1 & l1 & l1' & _ & H & ->).
  apply bind_inv_returned in H. destruct H as (u & s2 & l2 & l2' & _ & H & ->).
  apply bind_inv_returned in H. destruct H as (c & s3 & l3 & l3' & _ & H & ->).
  apply bind_inv_returned in H. destruct H as (u' & s4 & l4 & l4' & T & H & ->).
  rewrite teardown_run in T. injection T as _ _ <-.
  injection H as _ _ <-.
  exists (l1 ++ l2 ++ l3). rewrite app_nil_r, <- !app_assoc. reflexivity.
Qed.

(** C7.  When [CreateMainEnvironment] hands back a nonzero exit code, [Run]
    - with any fuel - goes on with the teardown and nothing else: after the
    calls of [CreateMainEnvironment] come the calls of the teardown, in their
    order (no more script invocation, stop the sub-contexts, reset standard
    I/O, cleanup hooks, at-exit hooks, drain then cancel the background
    tasks); no call of the load phase, of the main loop or of the exit event
    is made; and [Run] returns that exit code.  And however [Run] gets to
    return, the teardown is what it ends with. *)
Theorem Run_startup_failure (fuel : nat) (w w1 : World) env code log1 :
  CreateMainEnvironment C cfg self w = Returned (env, code) w1 log1 ->
  code <> 0 ->
  Run C cfg fuel self w =
    Returned code (replay C (teardown_events cfg self) w1)
             (log1 ++ teardown_events cfg self) /\
  forallb (fun e => negb (load_loop_or_exit e)) (log1 ++ teardown_events cfg self) = true /\
  (exists rest,
     teardown_events cfg self =
       [Ev_set_can_call_into_js false; Ev_stop_sub_worker_contexts; Ev_ResetStdio;
        Ev_RunCleanup; Ev_RunAtExit;
        Ev_DrainVMTasks (isolate_ self); Ev_CancelVMTasks (isolate_ self)] ++ rest) /\
  (forall fuel' w' code' w2 log,
     Run C cfg fuel' self w' = Returned code' w2 log ->
     exists before, log = before ++ teardown_events cfg self).
Proof.
  intros H NZ.
  destruct (CreateMainEnvironment_returned self _ _ _ _ _ H) as [NotNull Quiet].
  split; [|split; [|split]].
  - unfold Run. erewrite bind_returned; [|exact H].
    destruct env as [env|]; [|discriminate NotNull]. cbn [isSome].
    destruct (Z.eqb_spec code 0) as [E|_]; [contradiction|].
    unfold CHECK. rewrite bind_ret_l, bind_ret_l.
    erewrite bind_returned; [|apply teardown_run].
    cbn. rewrite app_nil_r. reflexivity.
  - rewrite forallb_app, Quiet. unfold teardown_events.
    destruct (LEAK_SANITIZER cfg); reflexivity.
  - unfold teardown_events. eauto.
  - intros fuel' w' code' w2 log. apply Run_ends_with_teardown.
Qed.

(** The loop ends when it is given fuel for one iteration more than it
    makes. *)
Lemma main_loop_fuel (fuel : nat) (w w' : World) log :
  main_loop C fuel self w = Returned tt w' log ->
  main_loop C (S fuel) self w = Returned tt w' log.
Proof.
  revert w log. induction fuel as [|fuel IH]; intros w log H.
  - discriminate H.
  - destruct (loop_iteration_returns w) as (again & w1 & l1 & It & _ & _).
    rewrite (main_loop_step (S fuel) w _ _ _ It).
    rewrite (main_loop_step fuel w _ _ _ It) in H.
    destruct again; [|exact H].
    apply prepend_inv_returned in H. destruct H as (l2 & H & ->).
    rewrite (IH _ _ H). reflexivity.
Qed.

End Running.
End InstanceFacts.

(** *** Examples *)

Lemma owned_deserialize_mode_witness :
  exists check w' log,
    NodeMainInstance_owned healthy plain_build some_params 4%nat 3%nat
      ["prog"%string] [] (Some [0%nat]) idle = Aborted check w' log.
Proof.
  apply (proj1 (proj2 (owned_deserialize_mode Sim healthy plain_build some_params
                         4%nat 3%nat ["prog"%string] [] (Some [0%nat]) idle)));
    reflexivity.
Defined.

Lemma owned_registered_before_initialize_witness :
  destroy healthy owned_instance idle =
    Returned tt idle [Ev_Isolate_Dispose 22%nat; Ev_UnregisterIsolate 3%nat 22%nat].
Proof.
  exact (proj2 (proj2 (proj2
           (proj1 (proj2 (owned_registered_before_initialize Sim healthy plain_build
                            some_params 4%nat 3%nat ["prog"%string] [] None idle))
                  owned_instance (mkCreateParams (Some 11%nat) None) idle _ eq_refl)))
           idle).
Defined.

(** With [node_is_nwjs] set and an engine that hands out isolate 22, the
    constructor returns an instance that owns that isolate, initialised,
    and holds no allocator. *)
Lemma nwjs_owned_without_allocator_witness :
  exists inst ps w' log,
    NodeMainInstance_owned healthy nwjs_build some_params 4%nat 3%nat
      ["prog"%string] [] None idle = Returned (inst, ps) w' log /\
    isolate_ inst = 22%nat /\
    owns_isolate_ inst = true /\
    array_buffer_allocator_ inst = None /\
    In (Ev_Isolate_Initialize 22%nat ps) log /\
    array_buffer_allocator ps = None.
Proof.
  destruct (proj2 (proj2 (proj2 (nwjs_owned_without_allocator Sim healthy nwjs_build
                                   some_params 4%nat 3%nat ["prog"%string] [] None idle
                                   eq_refl)))
              22%nat eq_refl eq_refl)
    as (inst & ps & w' & log & Run & Iso & Owns & NoAlloc & _ & Init & NoParam).
  exists inst, ps, w', log. repeat split; assumption.
Defined.

(** Without a context there is no environment to return: here
    [CreateMainEnvironment] does not return at all. *)
Lemma CreateMainEnvironment_without_context :
  requested_context no_context plain_build owned_instance idle = None /\
  CreateMainEnvironment no_context plain_build owned_instance idle =
    Aborted "!context.IsEmpty()" idle [Ev_NewContext 22%nat None].
Proof. split; reflexivity. Qed.

Lemma CreateMainEnvironment_spec_witness :
  exists env code,
    CreateMainEnvironment inspector_fails plain_build owned_instance idle =
      Returned (Some env, code) idle
        (log_of (CreateMainEnvironment inspector_fails plain_build owned_instance idle)).
Proof.
  destruct (CreateMainEnvironment_spec Sim inspector_fails plain_build owned_instance idle
              5%nat
              (eq_refl : requested_context inspector_fails plain_build owned_instance
                           idle = Some 5%nat))
    as (env & code & H & _).
  exists env, code. exact H.
Defined.

(** The inspector answers 9: [Run] goes from there to the teardown and
    returns 9. *)
Lemma Run_startup_failure_witness :
  Run inspector_fails plain_build 0 owned_instance idle =
    Returned 9 idle
      ([Ev_NewContext 22%nat (Some 5%nat);
        Ev_new_Environment
          (mkEnvironment (isolate_data_ owned_instance) 5%nat ["prog"%string] []
                         [kIsMainThread; kOwnsProcessState; kOwnsInspector]);
        Ev_InitializeLibuv false; Ev_InitializeDiagnostics; Ev_InitializeInspector 9]
       ++ [Ev_set_can_call_into_js false; Ev_stop_sub_worker_contexts; Ev_ResetStdio;
           Ev_RunCleanup; Ev_RunAtExit; Ev_DrainVMTasks 22%nat; Ev_CancelVMTasks 22%nat]).
Proof.
  refine (proj1 (Run_startup_failure Sim inspector_fails plain_build owned_instance
                   O idle idle _ 9 _ _ _)); [reflexivity|discriminate].
Defined.


End MainInstanceFacts.

(** ** More on the task-queue bridge *)

Module TaskQueueMore.
Import task_queue.

#[local] Arguments uint64_incr c : simpl never.

Section BridgeMore.
Variable Heap : Type.
Variable run_checkpoint : Script Heap -> Script Heap.
Variable run_call :
  Value -> Value -> list Value -> Script Heap -> LocalHandle Value * Script Heap.
Variables kPromiseRejectWithNoHandler kPromiseHandlerAddedAfterReject
          kPromiseRejectAfterResolved kPromiseResolveAfterResolved : Z.

Lemma flags_clear_set_tick_callback (f : Value) (w : Script Heap) :
  flags_clear (with_env (set_tick_callback_function f) w) = flags_clear w.
Proof. reflexivity. Qed.

(** X1.  Once [SetTickCallback] was given a function, a pending tick or
    rejection warning makes [RunNextTicksNative] call that function - once,
    on the process object, without arguments and without a checkpoint
    before it - whatever was registered before, if anything; the result
    tells whether the call produced a value. *)
Theorem SetTickCallback_then_RunNextTicksNative
  (args : FunctionCallbackInfo) (w : Script Heap) :
  IsFunction (arg args 0) = true ->
  flags_clear w = false ->
  let registered := with_env (set_tick_callback_function (arg args 0)) w in
  let call := run_call (arg args 0) (process_object (env w)) [] registered in
  (SetTickCallback args ;; RunNextTicksNative run_checkpoint run_call) w =
    Returned (negb (IsEmpty (fst call))) (snd call)
             [FunctionCall (arg args 0) (process_object (env w)) []].
Proof.
  intros F Clear. unfold SetTickCallback, RunNextTicksNative, Function_Call.
  run_native. rewrite F. run_native.
  repeat (rewrite ?flags_clear_set_tick_callback, ?Clear; run_native).
  destruct (run_call _ _ _ _) as [r w2]. reflexivity.
Qed.

(** X2.  Once [SetPromiseRejectCallback] was given a function for the
    environment of the current context, [PromiseRejectCallback] returns for
    every message, and whatever it calls is that function, with [undefined]
    as receiver and the event kind, the promise and a value as arguments. *)
Theorem SetPromiseRejectCallback_then_PromiseRejectCallback
  (args : FunctionCallbackInfo) (message : PromiseRejectMessage)
  (p : Process Heap) (w : Script Heap) :
  IsFunction (arg args 0) = true ->
  current_environment p = Some w ->
  let run := (in_environment w (SetPromiseRejectCallback args) ;;
              PromiseRejectCallback run_call kPromiseRejectWithNoHandler
                kPromiseHandlerAddedAfterReject kPromiseRejectAfterResolved
                kPromiseResolveAfterResolved message) p in
  returns run = true /\
  forall callback recv argv,
    In (FunctionCall callback recv argv) (log_of run) ->
    callback = arg args 0 /\ recv = Undefined /\
    exists value, argv = [Number (GetEvent message); GetPromise message; value].
Proof.
  clear run_checkpoint. intros F He.
  unfold SetPromiseRejectCallback, PromiseRejectCallback, in_environment, Function_Call,
    trace_rejections.
  run_native. rewrite F. run_native.
  repeat match goal with
         | |- context [GetEvent message =? ?k] => destruct (GetEvent message =? k)
         end; run_native;
    try (destruct (run_call (arg args 0) Undefined _ _) as [r w']; cbn);
    (split; [reflexivity|]);
    intros callback recv argv Hin;
    repeat (destruct Hin as [Hin|Hin]; [try discriminate Hin|]);
    try contradiction;
    injection Hin as <- <- <-; eauto.
Qed.

(** X3.  Registration replaces: of two functions registered one after the
    other as tick callback, or as rejection callback, the second is the one
    that stays, and the two kinds of registration do not disturb each
    other. *)
Theorem registration_replaces (a b : FunctionCallbackInfo) (w : Script Heap) :
  IsFunction (arg a 0) = true ->
  IsFunction (arg b 0) = true ->
  (SetTickCallback a ;; SetTickCallback b) w = SetTickCallback b w /\
  (SetPromiseRejectCallback a ;; SetPromiseRejectCallback b) w
    = SetPromiseRejectCallback b w /\
  (SetTickCallback a ;; SetPromiseRejectCallback b) w
    = (SetPromiseRejectCallback b ;; SetTickCallback a) w.
Proof.
  intros Fa Fb. unfold SetTickCallback, SetPromiseRejectCallback.
  run_native. rewrite Fa, Fb. run_native. repeat split.
Qed.

(** X4.  The native microtask queue is first in, first out for the
    bindings: a run of [enqueueMicrotask] calls with functions appends them
    to the queue in the order of the calls and touches nothing else; at the
    first call whose argument is not a function the process is aborted with
    the earlier functions queued and none of the later ones. *)
Theorem enqueue_each_fifo (good : list FunctionCallbackInfo) (w : Script Heap) :
  Forall (fun args => IsFunction (arg args 0) = true) good ->
  let fs := map (fun args => arg args 0) good in
  let queued := mkScript (env w) (microtask_queue w ++ fs) (heap w) in
  enqueue_each good w = Returned tt queued (map IsolateEnqueueMicrotask fs) /\
  forall bad later,
    IsFunction (arg bad 0) = false ->
    enqueue_each (good ++ bad :: later) w
      = Aborted "args[0]->IsFunction()" queued (map IsolateEnqueueMicrotask fs).
Proof.
  intros G. revert w. induction G as [|args good Fa G IH]; intros w; cbv zeta.
  - cbn. rewrite app_nil_r. destruct w. split; [reflexivity|].
    intros bad later Fb. unfold EnqueueMicrotask. run_native. rewrite Fb. reflexivity.
  - specialize (IH (enqueued (arg args 0) w)). cbv zeta in IH.
    destruct IH as [IHgood IHbad].
    assert (Step : EnqueueMicrotask args w =
                   Returned tt (enqueued (arg args 0) w)
                            [IsolateEnqueueMicrotask (arg args 0)]).
    { unfold EnqueueMicrotask, Isolate_EnqueueMicrotask, enqueued.
      run_native. rewrite Fa. reflexivity. }
    cbn [enqueue_each app map]. split.
    + erewrite bind_returned; [|exact Step]. rewrite IHgood.
      unfold enqueued. cbn. rewrite <- app_assoc. reflexivity.
    + intros bad later Fb.
      erewrite bind_returned; [|exact Step]. rewrite (IHbad bad later Fb).
      unfold enqueued. cbn. rewrite <- app_assoc. reflexivity.
Qed.

(** X5.  Whatever the message and however the call ends,
    [PromiseRejectCallback] keeps both counters within 64 bits and moves at
    most one of them, by one step: [unhandledRejections] only on
    reject-with-no-handler, [rejectionsHandledAfter] only on
    handler-added-after-reject.  It neither associates nor dissociates an
    environment. *)
Theorem PromiseRejectCallback_counters
  (message : PromiseRejectMessage) (p : Process Heap) :
  counters_in_range p ->
  let after := state_of (PromiseRejectCallback run_call kPromiseRejectWithNoHandler
                           kPromiseHandlerAddedAfterReject kPromiseRejectAfterResolved
                           kPromiseResolveAfterResolved message p) in
  counters_in_range after /\
  ((unhandledRejections after = unhandledRejections p /\
    rejectionsHandledAfter after = rejectionsHandledAfter p) \/
   (unhandledRejections after = uint64_incr (unhandledRejections p) /\
    rejectionsHandledAfter after = rejectionsHandledAfter p /\
    GetEvent message = kPromiseRejectWithNoHandler) \/
   (unhandledRejections after = unhandledRejections p /\
    rejectionsHandledAfter after = uint64_incr (rejectionsHandledAfter p) /\
    GetEvent message = kPromiseHandlerAddedAfterReject)) /\
  (current_environment p = None <-> current_environment after = None).
Proof.
  clear run_checkpoint. intros [Ru Rh].
  pose proof (uint64_incr_range (unhandledRejections p)) as Iu.
  pose proof (uint64_incr_range (rejectionsHandledAfter p)) as Ih.
  unfold PromiseRejectCallback, in_environment, Function_Call, trace_rejections.
  run_native.
  destruct (current_environment p) as [w|] eqn:He; run_native.
  2: { rewrite ?He. split; [split; assumption|]. split; [left; split; reflexivity|].
       split; intros D; auto. }
  destruct (promise_reject_callback (env w)) as [callback|]; run_native.
  2: { rewrite ?He. split; [split; assumption|]. split; [left; split; reflexivity|].
       split; intros D; discriminate D. }
  destruct (Z.eqb_spec (GetEvent message) kPromiseRejectWithNoHandler) as [E0|E0];
    [|destruct (Z.eqb_spec (GetEvent message) kPromiseHandlerAddedAfterReject) as [E1|E1];
      [|destruct (GetEvent message =? kPromiseResolveAfterResolved);
        [|destruct (GetEvent message =? kPromiseRejectAfterResolved)]]];
    run_native;
    try (destruct (run_call callback Undefined _ w) as [r w']; cbn);
    rewrite ?He; (split; [split; assumption|]);
    (split; [|split; intros D; discriminate D]).
  - right. left. split; [reflexivity|]. split; [reflexivity|exact E0].
  - right. right. split; [reflexivity|]. split; [reflexivity|exact E1].
  - left. split; reflexivity.
  - left. split; reflexivity.
  - left. split; reflexivity.
Qed.

(** X6.  [PromiseRejectCallback] calls into script at most once, and only
    the rejection callback registered with the environment of the current
    context; a trace of the counters, when there is one, comes before that
    call and shows the counters as the call leaves them. *)
Theorem PromiseRejectCallback_calls
  (message : PromiseRejectMessage) (p : Process Heap) :
  let run := PromiseRejectCallback run_call kPromiseRejectWithNoHandler
               kPromiseHandlerAddedAfterReject kPromiseRejectAfterResolved
               kPromiseResolveAfterResolved message p in
  log_of run = [] \/
  exists w callback value,
    current_environment p = Some w /\
    promise_reject_callback (env w) = Some callback /\
    (log_of run = [dispatch callback message value] \/
     log_of run = [trace_counter (unhandledRejections (state_of run))
                                 (rejectionsHandledAfter (state_of run));
                   dispatch callback message value]).
Proof.
  clear run_checkpoint.
  unfold PromiseRejectCallback, in_environment, Function_Call, trace_rejections,
    dispatch, trace_counter.
  run_native.
  destruct (current_environment p) as [w|] eqn:He; run_native; [|left; reflexivity].
  destruct (promise_reject_callback (env w)) as [callback|] eqn:Hc; run_native;
    [|left; reflexivity].
  repeat match goal with
         | |- context [GetEvent message =? ?k] => destruct (GetEvent message =? k)
         end; run_native;
    try (destruct (run_call callback Undefined _ w) as [r w']; cbn);
    try (left; reflexivity);
    right; exists w, callback; eexists; (split; [reflexivity|]); (split; [exact Hc|]);
    first [left; reflexivity | right; reflexivity].
Qed.

End BridgeMore.

Lemma SetTickCallback_then_RunNextTicksNative_witness :
  (SetTickCallback [Function 1] ;;
   RunNextTicksNative checkpoint_scheduling_tick call_clearing_tick) unregistered =
  Returned true
    (mkScript (mkEnvironment (mkTickInfo false false) (Some (Function 1)) None (Object 0))
              [] tt)
    [FunctionCall (Function 1) (Object 0) []].
Proof.
  apply (SetTickCallback_then_RunNextTicksNative unit checkpoint_scheduling_tick
           call_clearing_tick [Function 1] unregistered); reflexivity.
Defined.

Lemma SetPromiseRejectCallback_then_PromiseRejectCallback_witness :
  returns
    ((in_environment unregistered (SetPromiseRejectCallback [Function 2]) ;;
      PromiseRejectCallback call_clearing_tick 0 1 2 3 rejected_no_handler)
       process_before_bootstrap) = true.
Proof.
  apply (SetPromiseRejectCallback_then_PromiseRejectCallback unit call_clearing_tick
           0 1 2 3 [Function 2] rejected_no_handler process_before_bootstrap
           unregistered); reflexivity.
Defined.

Lemma registration_replaces_witness :
  (SetTickCallback [Function 1] ;; SetTickCallback [Function 2]) bootstrapped
  = SetTickCallback [Function 2] bootstrapped.
Proof.
  apply (registration_replaces unit [Function 1] [Function 2] bootstrapped);
    reflexivity.
Defined.

Lemma enqueue_each_fifo_witness :
  enqueue_each [[Function 1]; [Function 2]] bootstrapped =
  Returned tt (mkScript (env bootstrapped) [Function 1; Function 2] tt)
           [IsolateEnqueueMicrotask (Function 1); IsolateEnqueueMicrotask (Function 2)].
Proof.
  apply (enqueue_each_fifo unit [[Function 1]; [Function 2]] bootstrapped).
  repeat constructor.
Defined.

Lemma PromiseRejectCallback_counters_witness :
  counters_in_range
    (state_of (PromiseRejectCallback call_clearing_tick 0 1 2 3 rejected_no_handler
                 process_after_bootstrap)).
Proof.
  apply (PromiseRejectCallback_counters unit call_clearing_tick 0 1 2 3
           rejected_no_handler process_after_bootstrap).
  unfold counters_in_range, UINT64_MODULUS. cbn. lia.
Defined.

End TaskQueueMore.

(** ** More on the engine-instance manager *)

Module MainInstanceMore.
Import main_instance.
Import MainInstanceFacts.

Section InstanceMore.
Variable World : Type.
Variable C : Collaborators World.
Variable cfg : Config.

Lemma count_app (p : Event -> bool) (l1 l2 : list Event) :
  count p (l1 ++ l2) = (count p l1 + count p l2)%nat.
Proof. unfold count. rewrite filter_app, List.length_app. reflexivity. Qed.

Lemma replay_app (l1 l2 : list Event) (w : World) :
  replay C (l1 ++ l2) w = replay C l2 (replay C l1 w).
Proof. unfold replay. apply fold_left_app. Qed.

Section OwnedMore.
Variable params : CreateParams.
Variable event_loop : uv_loop_t.
Variable platform : MultiIsolatePlatform.
Variables args exec_args : list string.
Variable per_isolate_data_indexes : option (list nat).

(** What the owned constructor returns, when it returns. *)
Lemma owned_returned (w w1 : World) inst ps log :
  NodeMainInstance_owned C cfg params event_loop platform args exec_args
    per_isolate_data_indexes w = Returned (inst, ps) w1 log ->
  exists isolate,
    let allocator := if node_is_nwjs cfg then None else Some (allocator_created C w) in
    let deserialize := isSome per_isolate_data_indexes in
    inst = mkNodeMainInstance args exec_args allocator isolate platform
             (Some (mkIsolateData isolate event_loop platform allocator
                                  per_isolate_data_indexes))
             true deserialize /\
    ps = mkCreateParams allocator (external_references params) /\
    In (Ev_Isolate_Initialize isolate ps) log /\
    count is_error_handlers log = if deserialize then 0%nat else 1%nat.
Proof.
  intros H.
  destruct (isolate_allocated C (allocation_world C cfg w)) as [isolate|] eqn:A.
  - rewrite (owned_allocated World C cfg params event_loop platform args exec_args
               per_isolate_data_indexes w _ A) in H. cbv zeta in H.
    destruct (implb _ _); [|discriminate H].
    injection H as <- <- _ <-. exists isolate. cbv zeta.
    split; [reflexivity|]. split; [reflexivity|].
    destruct (node_is_nwjs cfg), per_isolate_data_indexes; cbn; intuition.
  - destruct (owned_unallocated World C cfg params event_loop platform args exec_args
                per_isolate_data_indexes w A) as (s & l & E & _).
    rewrite E in H. discriminate H.
Qed.

(** X8.  An instance that owns its isolate cannot be given to [Dispose]:
    for every instance the owned constructor returns, [Dispose] dies on its
    [CHECK] before it drains or deletes anything. *)
Theorem Dispose_owned (w w1 : World) inst ps log :
  NodeMainInstance_owned C cfg params event_loop platform args exec_args
    per_isolate_data_indexes w = Returned (inst, ps) w1 log ->
  forall w2, Dispose C inst w2 = Aborted "!owns_isolate_" w2 [].
Proof.
  intros H w2. destruct (owned_returned w _ _ _ _ H) as (isolate & -> & _). reflexivity.
Qed.


(** X11.  The allocator of an owned instance is one and the same
    everywhere: the instance, its isolate data and the parameters that
    [Isolate::Initialize] was given hold the allocator the constructor
    created - or none when [node_is_nwjs] is set - whatever allocator the
    caller had put into the parameters; the external references of the
    caller are passed on as they were. *)
Theorem owned_allocator_shared (w w1 : World) inst ps log :
  NodeMainInstance_owned C cfg params event_loop platform args exec_args
    per_isolate_data_indexes w = Returned (inst, ps) w1 log ->
  let allocator := if node_is_nwjs cfg then None else Some (allocator_created C w) in
  array_buffer_allocator_ inst = allocator /\
  option_map data_allocator (isolate_data_ inst) = Some allocator /\
  array_buffer_allocator ps = allocator /\
  external_references ps = external_references params /\
  In (Ev_Isolate_Initialize (isolate_ inst) ps) log.
Proof.
  intros H. destruct (owned_returned w _ _ _ _ H) as (isolate & -> & -> & Hin & _).
  cbv zeta in *. cbn. auto.
Qed.

End OwnedMore.

(** X10.  An attached isolate never gets error handlers from this layer:
    neither [Create] nor [CreateMainEnvironment] on the instance it returns
    installs them; both apply other settings only. *)
Theorem attached_error_handlers_never
  (isolate : Isolate) (event_loop : uv_loop_t) (platform : MultiIsolatePlatform)
  (args exec_args : list string) (w w1 w2 w3 : World) inst log env code log' :
  Create C isolate event_loop platform args exec_args w = Returned inst w1 log ->
  CreateMainEnvironment C cfg inst w2 = Returned (env, code) w3 log' ->
  count is_error_handlers (log ++ log') = 0%nat.
Proof.
  intros H H'. injection H as <- _ <-.
  match type of H' with CreateMainEnvironment C cfg ?self w2 = _ =>
    destruct (requested_context C cfg self w2) as [context|] eqn:Ctx;
    [ rewrite (CreateMainEnvironment_run World C cfg self w2 context Ctx) in H'
    | destruct (CreateMainEnvironment_no_context World C cfg self w2 Ctx) as (c & s & l & E);
      rewrite E in H'; discriminate H' ]
  end.
  cbv zeta in H'. cbn [deserialize_mode_] in H'.
  destruct (negb _) in H'; injection H' as _ _ _ <-;
    destruct (track_heap_objects cfg), (HAVE_INSPECTOR_AND_V8_PLATFORM cfg);
    reflexivity.
Qed.

Section RunningMore.
Variable self : NodeMainInstance.

Lemma Run_unfold (fuel : nat) (w : World) :
  Run C cfg fuel self w =
    (created <- CreateMainEnvironment C cfg self ;;
     let '(env, exit_code) := created in
     CHECK (isSome env) "(env) != nullptr" ;;
     after_environment C cfg fuel self exit_code) w.
Proof. reflexivity. Qed.

Lemma after_environment_failure (fuel : nat) (code : Z) (w : World) :
  code <> 0 ->
  after_environment C cfg fuel self code w =
    Returned code (replay C (teardown_events cfg self) w) (teardown_events cfg self).
Proof.
  intros NZ. unfold after_environment.
  destruct (Z.eqb_spec code 0) as [E|_]; [contradiction|].
  rewrite bind_ret_l. erewrite bind_returned; [|apply teardown_run].
  cbn. rewrite app_nil_r. reflexivity.
Qed.

Lemma after_environment_success (fuel : nat) (w : World) :
  after_environment C cfg fuel self 0 w =
    match main_loop C fuel self (replay C load_events w) with
    | Returned _ w2 looped =>
        let code := exit_status C (replay C loop_exit_events w2) in
        let rest := loop_exit_events
                    ++ [Ev_EmitExit code; Ev_WaitForInspectorDisconnect]
                    ++ teardown_events cfg self in
        Returned code (replay C rest w2) (load_events ++ looped ++ rest)
    | Aborted check s looped => Aborted check s (load_events ++ looped)
    | OutOfFuel s looped => OutOfFuel s (load_events ++ looped)
    end.
Proof.
  unfold after_environment, teardown, teardown_events, load_events, loop_exit_events,
    replay.
  run_instance.
  destruct (main_loop C fuel self _) as [[] w2 looped|check s looped|s looped];
    run_instance; try reflexivity.
  destruct (LEAK_SANITIZER cfg); run_instance; rewrite <- ?app_assoc; reflexivity.
Qed.

(** What one iteration calls. *)
Lemma loop_iteration_counts (w : World) :
  exists again w1 log,
    loop_iteration C self w = Returned again w1 log /\
    w1 = replay C log w /\
    count is_uv_run log = 1%nat /\
    count is_DrainVMTasks log = 1%nat /\
    (count is_EmitBeforeExit log <= count is_RunBeforeExitCallbacks log <= 1)%nat /\
    (again = false -> count is_RunBeforeExitCallbacks log = 1%nat).
Proof.
  pose proof (loop_iteration_run World C self w) as R. cbv zeta in R.
  destruct (loop_alive C _ && negb (stopping C _)) in R.
  - do 3 eexists. split; [exact R|]. cbn. repeat split; try lia; try discriminate.
  - destruct (loop_alive C (effect C Ev_RunBeforeExitCallbacks _)) in R;
      do 3 eexists; (split; [exact R|]); cbn; repeat split; try lia; auto.
Qed.

(** X15.  Bookkeeping of the main loop, for every amount of fuel and every
    behaviour of the collaborators: the state is the one its calls lead to;
    each reactor pass is followed by one drain of the background tasks; the
    before-exit hooks run at most once per pass and the before-exit event is
    emitted at most once per run of the hooks; the loop never dies on a
    [CHECK]; it is left only after the before-exit hooks ran; and when the
    fuel runs out it has made one pass per unit of fuel. *)
Theorem main_loop_counts (fuel : nat) (w : World) :
  let run := main_loop C fuel self w in
  let log := log_of run in
  state_of run = replay C log w /\
  count is_uv_run log = count is_DrainVMTasks log /\
  (count is_EmitBeforeExit log <= count is_RunBeforeExitCallbacks log
   <= count is_uv_run log)%nat /\
  match run with
  | Returned _ _ _ =>
      (1 <= count is_RunBeforeExitCallbacks log)%nat /\ (count is_uv_run log <= fuel)%nat
  | Aborted _ _ _ => False
  | OutOfFuel _ _ => count is_uv_run log = fuel
  end.
Proof.
  cbv zeta. revert w. induction fuel as [|fuel IH]; intros w.
  - cbn. repeat split; lia.
  - destruct (loop_iteration_counts w)
      as (again & w1 & log & It & -> & Hu & Hd & He & Hleft).
    rewrite (main_loop_step World C self fuel w _ _ _ It).
    destruct again.
    + specialize (IH (replay C log w)).
      destruct IH as (Hs & Hud & Hle & Hend).
      rewrite log_of_prepend, state_of_prepend, !count_app, replay_app.
      split; [exact Hs|]. split; [lia|]. split; [lia|].
      destruct (main_loop C fuel self (replay C log w)); cbn [prepend];
        cbn [log_of] in *; lia.
    + specialize (Hleft eq_refl). cbn [log_of state_of].
      repeat split; lia.
Qed.

(** X12.  A run that starts well: when [CreateMainEnvironment] hands back
    exit code 0 and the main loop is left within the fuel, [Run] loads the
    environment inside the async scope 1/0, marks the start of the loop,
    loops, marks its end, switches the tracing of synchronous I/O off, emits
    the exit event, waits for the inspector to disconnect and tears down;
    what it returns is the exit code that the exit event answered. *)
Theorem Run_success (fuel : nat) (w w1 w2 : World) env log1 looped :
  CreateMainEnvironment C cfg self w = Returned (env, 0) w1 log1 ->
  main_loop C fuel self (replay C load_events w1) = Returned tt w2 looped ->
  let code := exit_status C (replay C loop_exit_events w2) in
  let rest := loop_exit_events
              ++ [Ev_EmitExit code; Ev_WaitForInspectorDisconnect]
              ++ teardown_events cfg self in
  Run C cfg fuel self w =
    Returned code (replay C rest w2) (log1 ++ load_events ++ looped ++ rest).
Proof.
  intros H L. cbv zeta.
  destruct (CreateMainEnvironment_returned World C cfg self _ _ _ _ _ H) as [NotNull _].
  rewrite Run_unfold. erewrite bind_returned; [|exact H].
  destruct env as [env|]; [|discriminate NotNull]. cbn [isSome CHECK].
  rewrite bind_ret_l, after_environment_success, L. reflexivity.
Qed.

(** X16.  A stop requested before the loop is entered, and not taken back,
    still gets one iteration: one reactor pass, one drain and the
    before-exit hooks run, the before-exit event is emitted if the reactor
    is idle after the hooks, and then the loop is left whatever work is
    pending. *)
Theorem main_loop_stopping (fuel : nat) (w : World) :
  stop_is_final C ->
  stopping C w = true ->
  let passed := [Ev_uv_run UV_RUN_DEFAULT; Ev_DrainVMTasks (isolate_ self)] in
  let hooked := replay C (passed ++ [Ev_RunBeforeExitCallbacks]) w in
  let log := passed ++ Ev_RunBeforeExitCallbacks
                    :: (if loop_alive C hooked then [] else [Ev_EmitBeforeExit]) in
  main_loop C (S fuel) self w = Returned tt (replay C log w) log.
Proof.
  intros Final Stop. cbv zeta.
  pose proof (loop_iteration_run World C self w) as R. cbv zeta in R.
  assert (S0 : stopping C (replay C [Ev_uv_run UV_RUN_DEFAULT;
                                     Ev_DrainVMTasks (isolate_ self)] w) = true).
  { cbn. auto. }
  rewrite S0, andb_false_r in R.
  rewrite (main_loop_step World C self fuel w _ _ _ R).
  assert (S1 : stopping C (effect C Ev_RunBeforeExitCallbacks
                             (replay C [Ev_uv_run UV_RUN_DEFAULT;
                                        Ev_DrainVMTasks (isolate_ self)] w)) = true).
  { auto. }
  change (replay C ([Ev_uv_run UV_RUN_DEFAULT; Ev_DrainVMTasks (isolate_ self)]
                    ++ [Ev_RunBeforeExitCallbacks]) w)
    with (effect C Ev_RunBeforeExitCallbacks
            (replay C [Ev_uv_run UV_RUN_DEFAULT; Ev_DrainVMTasks (isolate_ self)] w)).
  destruct (loop_alive C (effect C Ev_RunBeforeExitCallbacks _)).
  - rewrite S1, andb_false_r. reflexivity.
  - rewrite (Final _ _ S1), andb_false_r. reflexivity.
Qed.

(** X17.  A program with nothing left to do: when the reactor is idle after
    its pass, after the before-exit hooks and after the before-exit event,
    the loop is left after that one iteration, having run the hooks once and
    emitted the event once. *)
Theorem main_loop_quiet (fuel : nat) (w : World) :
  let passed := [Ev_uv_run UV_RUN_DEFAULT; Ev_DrainVMTasks (isolate_ self)] in
  let log := passed ++ [Ev_RunBeforeExitCallbacks; Ev_EmitBeforeExit] in
  loop_alive C (replay C passed w) = false ->
  loop_alive C (replay C (passed ++ [Ev_RunBeforeExitCallbacks]) w) = false ->
  loop_alive C (replay C log w) = false ->
  main_loop C (S fuel) self w = Returned tt (replay C log w) log.
Proof.
  cbv zeta. intros A0 A1 A2.
  pose proof (loop_iteration_run World C self w) as R. cbv zeta in R.
  cbn in A1, A2.
  rewrite A0 in R. cbn [andb] in R. cbn in R. rewrite A1 in R. rewrite A2 in R.
  rewrite (main_loop_step World C self fuel w _ _ _ R). reflexivity.
Qed.

Lemma alone_lifetime (log : list Event) :
  forallb leaves_isolate_alone log = true ->
  forallb (fun e => negb (isolate_lifetime_event e)) log = true.
Proof.
  rewrite !forallb_forall. intros H e He. specialize (H e He).
  unfold leaves_isolate_alone in H. apply andb_prop in H. tauto.
Qed.

Lemma alone_handlers (log : list Event) :
  forallb leaves_isolate_alone log = true -> count is_error_handlers log = 0%nat.
Proof.
  induction log as [|e log IH]; [reflexivity|].
  cbn [forallb]. intros H. apply andb_prop in H. destruct H as [He Hl].
  unfold leaves_isolate_alone in He. apply andb_prop in He. destruct He as [_ He].
  unfold count in *. cbn [filter]. destruct (is_error_handlers e); [discriminate He|].
  exact (IH Hl).
Qed.

Lemma main_loop_alone (fuel : nat) (w : World) :
  forallb leaves_isolate_alone (log_of (main_loop C fuel self w)) = true.
Proof.
  revert w. induction fuel as [|fuel IH]; intros w; [reflexivity|].
  pose proof (loop_iteration_run World C self w) as R. cbv zeta in R.
  assert (exists again w1 log,
            loop_iteration C self w = Returned again w1 log /\
            forallb leaves_isolate_alone log = true) as (again & w1 & log & It & Hl).
  { destruct (loop_alive C _ && negb (stopping C _)) in R;
      [|destruct (loop_alive C (effect C Ev_RunBeforeExitCallbacks _)) in R];
      do 3 eexists; (split; [exact R|reflexivity]). }
  rewrite (main_loop_step World C self fuel w _ _ _ It).
  destruct again; [|exact Hl].
  rewrite log_of_prepend, forallb_app, Hl. apply IH.
Qed.

Lemma after_environment_alone (fuel : nat) (code : Z) (w : World) :
  forallb leaves_isolate_alone (log_of (after_environment C cfg fuel self code w)) = true.
Proof.
  assert (T : forallb leaves_isolate_alone (teardown_events cfg self) = true).
  { unfold teardown_events. destruct (LEAK_SANITIZER cfg); reflexivity. }
  destruct (Z.eqb_spec code 0) as [->|NZ].
  - rewrite after_environment_success.
    pose proof (main_loop_alone fuel (replay C load_events w)) as L.
    destruct (main_loop C fuel self (replay C load_events w)); cbn [log_of] in *;
      rewrite ?forallb_app, ?L, ?T; reflexivity.
  - rewrite (after_environment_failure fuel code w NZ). exact T.
Qed.

(** What [CreateMainEnvironment] calls, however it ends. *)
Lemma CreateMainEnvironment_calls (w : World) :
  let log := log_of (CreateMainEnvironment C cfg self w) in
  forallb (fun e => negb (isolate_lifetime_event e)) log = true /\
  (count is_error_handlers log <= 1)%nat /\
  (deserialize_mode_ self = false -> forallb leaves_isolate_alone log = true).
Proof.
  unfold CreateMainEnvironment. run_instance.
  destruct (track_heap_objects cfg), (deserialize_mode_ self); run_instance;
    match goal with
    | |- context [context_from_snapshot C ?x] => destruct (context_from_snapshot C x)
    | |- context [context_created C ?x] => destruct (context_created C x)
    end; run_instance;
    try (destruct (HAVE_INSPECTOR_AND_V8_PLATFORM cfg); run_instance);
    try match goal with
        | |- context [inspector_status C ?x =? 0] =>
            destruct (inspector_status C x =? 0); run_instance
        end;
    unfold count; cbn; repeat split; try lia; try discriminate.
Qed.

Lemma Run_calls (fuel : nat) (w : World) :
  let log := log_of (Run C cfg fuel self w) in
  forallb (fun e => negb (isolate_lifetime_event e)) log = true /\
  (count is_error_handlers log <= 1)%nat /\
  (deserialize_mode_ self = false -> forallb leaves_isolate_alone log = true).
Proof.
  cbv zeta. remember (Run C cfg fuel self w) as run eqn:E.
  rewrite Run_unfold in E. unfold bind at 1 in E.
  destruct (CreateMainEnvironment_calls w) as (Life & Once & Plain).
  destruct (CreateMainEnvironment C cfg self w) as [[env code] w1 log1| |] eqn:H;
    subst run; cbn [log_of] in *; [|auto|auto].
  assert (Rest : forallb leaves_isolate_alone
                   (log_of ((CHECK (isSome env) "(env) != nullptr" ;;
                             after_environment C cfg fuel self code) w1)) = true).
  { destruct env; cbn [isSome CHECK].
    - rewrite bind_ret_l. apply after_environment_alone.
    - reflexivity. }
  rewrite log_of_prepend, !forallb_app, count_app.
  rewrite Life, (alone_lifetime _ Rest), (alone_handlers _ Rest), Rest.
  split; [reflexivity|]. split; [lia|].
  intros D. rewrite (Plain D). reflexivity.
Qed.

(** X18.  [Run] leaves the life of the isolate to the constructor and the
    destructor: with any fuel and however it ends, it creates or frees no
    allocator and allocates, registers, initialises, disposes or
    unregisters no isolate.  It installs error handlers at most once, and
    not at all for an instance that is not in deserialize mode. *)
Theorem Run_leaves_isolate_alone (fuel : nat) (w : World) :
  let log := log_of (Run C cfg fuel self w) in
  forallb (fun e => negb (isolate_lifetime_event e)) log = true /\
  (count is_error_handlers log <= 1)%nat /\
  (deserialize_mode_ self = false -> forallb leaves_isolate_alone log = true).
Proof.
  cbv zeta. destruct (Run_calls fuel w) as (Life & Once & Plain).
  split; [exact Life|]. split; [exact Once|exact Plain].
Qed.

End RunningMore.

Lemma Run_alone (fuel : nat) (self : NodeMainInstance) (w : World) :
  deserialize_mode_ self = false ->
  forallb leaves_isolate_alone (log_of (Run C cfg fuel self w)) = true.
Proof. intros D. apply (Run_calls self fuel w). exact D. Qed.

(** X7.  The life of an attached instance - [Create], [Run], [Dispose] -
    when [Run] returns: the three return in turn, the result is the exit
    code of [Run], and the calls are those of [Create] (isolate data,
    miscellaneous settings), those of [Run] and one drain of the tasks of
    the isolate.  Nothing in it makes or ends an isolate or installs error
    handlers: the isolate stays the caller's. *)
Theorem attached_lifetime_spec (fuel : nat)
  (isolate : Isolate) (event_loop : uv_loop_t) (platform : MultiIsolatePlatform)
  (args exec_args : list string) (w w2 : World) code log2 :
  let self := mkNodeMainInstance args exec_args None isolate platform
                (Some (mkIsolateData isolate event_loop platform None None))
                false false in
  let created := [Ev_new_IsolateData (mkIsolateData isolate event_loop platform None None);
                  Ev_SetIsolateUpForNode isolate kMisc] in
  Run C cfg fuel self (replay C created w) = Returned code w2 log2 ->
  attached_lifetime C cfg fuel isolate event_loop platform args exec_args w =
    Returned code (effect C (Ev_DrainTasks platform isolate) w2)
             (created ++ log2 ++ [Ev_DrainTasks platform isolate]) /\
  forallb leaves_isolate_alone (created ++ log2 ++ [Ev_DrainTasks platform isolate]) = true.
Proof.
  cbv zeta. intros H. split.
  - unfold attached_lifetime.
    erewrite bind_returned; [|reflexivity].
    erewrite bind_returned; [|exact H].
    cbn. rewrite ?app_nil_r. reflexivity.
  - pose proof (Run_alone fuel
                  (mkNodeMainInstance args exec_args None isolate platform
                     (Some (mkIsolateData isolate event_loop platform None None))
                     false false)
                  (replay C [Ev_new_IsolateData
                               (mkIsolateData isolate event_loop platform None None);
                             Ev_SetIsolateUpForNode isolate kMisc] w) eq_refl) as X.
    rewrite H in X. cbn [log_of] in X.
    rewrite !forallb_app, X. reflexivity.
Qed.

End InstanceMore.

(** *** Examples *)

Lemma attached_lifetime_spec_witness :
  attached_lifetime healthy plain_build 1 22%nat 4%nat 3%nat ["prog"%string] [] busy =
    Returned 0 idle
      ([Ev_new_IsolateData (mkIsolateData 22%nat 4%nat 3%nat None None);
        Ev_SetIsolateUpForNode 22%nat kMisc]
       ++ log_of (Run healthy plain_build 1 attached_instance busy)
       ++ [Ev_DrainTasks 3%nat 22%nat]).
Proof.
  refine (proj1 (attached_lifetime_spec Sim healthy plain_build 1 22%nat 4%nat 3%nat
                   ["prog"%string] [] busy idle 0 _ _)).
  reflexivity.
Defined.

Lemma Dispose_owned_witness :
  Dispose healthy owned_instance idle = Aborted "!owns_isolate_" idle [].
Proof.
  refine (Dispose_owned Sim healthy plain_build some_params 4%nat 3%nat
            ["prog"%string] [] None idle idle owned_instance _ _ _ idle).
  reflexivity.
Defined.


Lemma attached_error_handlers_never_witness :
  count is_error_handlers
    (log_of (Create healthy 22%nat 4%nat 3%nat ["prog"%string] [] idle)
     ++ log_of (CreateMainEnvironment healthy plain_build attached_instance idle)) = 0%nat.
Proof.
  refine (attached_error_handlers_never Sim healthy plain_build 22%nat 4%nat 3%nat
            ["prog"%string] [] idle idle idle idle attached_instance _ _ _ _ _ _);
    reflexivity.
Defined.

Lemma owned_allocator_shared_witness :
  array_buffer_allocator_ owned_instance = Some 11%nat /\
  option_map data_allocator (isolate_data_ owned_instance) = Some (Some 11%nat).
Proof.
  pose proof (owned_allocator_shared Sim healthy plain_build some_params 4%nat 3%nat
                ["prog"%string] [] None idle idle owned_instance _ _ eq_refl) as H.
  exact (conj (proj1 H) (proj1 (proj2 H))).
Defined.

Lemma Run_success_witness :
  Run healthy plain_build 1 owned_instance busy =
    Returned 0 idle
      (log_of (CreateMainEnvironment healthy plain_build owned_instance busy)
       ++ load_events
       ++ [Ev_uv_run UV_RUN_DEFAULT; Ev_DrainVMTasks 22%nat;
           Ev_RunBeforeExitCallbacks; Ev_EmitBeforeExit]
       ++ loop_exit_events
       ++ [Ev_EmitExit 0; Ev_WaitForInspectorDisconnect]
       ++ teardown_events plain_build owned_instance).
Proof.
  refine (Run_success Sim healthy plain_build owned_instance 1 busy busy idle _ _ _ _ _);
    reflexivity.
Defined.

Lemma simulator_stop_is_final inspector bootstrap_ok hook_stops context :
  stop_is_final (simulator inspector bootstrap_ok hook_stops context).
Proof.
  intros e [n stop] H. cbn in H. subst stop.
  destruct e; try reflexivity. destruct hook_stops; reflexivity.
Qed.

Lemma main_loop_stopping_witness :
  main_loop healthy 1 owned_instance (mkSim 1 true) =
    Returned tt (mkSim 0 true)
      [Ev_uv_run UV_RUN_DEFAULT; Ev_DrainVMTasks 22%nat;
       Ev_RunBeforeExitCallbacks; Ev_EmitBeforeExit].
Proof.
  apply (main_loop_stopping Sim healthy owned_instance 0 (mkSim 1 true)).
  - apply simulator_stop_is_final.
  - reflexivity.
Defined.

Lemma main_loop_quiet_witness :
  main_loop healthy 1 owned_instance busy =
    Returned tt idle
      [Ev_uv_run UV_RUN_DEFAULT; Ev_DrainVMTasks 22%nat;
       Ev_RunBeforeExitCallbacks; Ev_EmitBeforeExit].
Proof.
  apply (main_loop_quiet Sim healthy owned_instance 0 busy); reflexivity.
Defined.

End MainInstanceMore.
